(** * CodeToImage: the Python-to-HTML highlighter, embedded in Rocq

    A shallow embedding of [src/highlight.py] (the command line front end)
    and [src/gui_highlighter.py] (the PyQt6 front end).  Both read a Python
    source file, hand its text to pygments, wrap the returned fragment in a
    fixed HTML document and write that document next to the input.

    Layout:
    - [Py]            Python values the program touches: exceptions, results,
                      the [str] methods it calls, [os.path.basename];
    - [PurePosixPath] the part of [pathlib] behind [Path(p).with_suffix];
    - [OS]            the file system as the program sees it through
                      [os.path.exists] and [open], with an I/O trace;
    - [Pygments]      the signature of the external [highlight] call;
    - [CLI]           [highlight.py]: [MONOKAI_CSS], [generate_html], [main];
    - [GUI]           [gui_highlighter.py]: [MONOKAI_CSS], [dropEvent],
                      [process_file], [generate_html], [open_in_browser];
    - the properties, one section per topic.

    Text is a [string] of bytes: a Python [str] is represented by its UTF-8
    encoding, so every ASCII character the program inspects (slash, dot,
    quote, angle brackets) is one byte, as in the source.  Paths follow the
    POSIX flavour of [os.path] and [pathlib]. *)

From Stdlib Require Import String Ascii List ZArith Lia Bool.
From stdpp Require Import base option list gmap sets strings.

Local Open Scope Z_scope.

Import ListNotations.

(* ===================================================================== *)
(** ** Python values *)
(* ===================================================================== *)

Module Py.

(** The exception classes that can reach the handlers of the two front
    ends.  All are subclasses of [Exception]; [OtherException] stands for
    any other class: one raised inside the pygments library, or a plain
    [OSError]. *)
Inductive exn_class :=
| FileNotFoundError
| IsADirectoryError
| NotADirectoryError
| PermissionError
| UnicodeDecodeError
| ValueError
| OtherException.

(** An exception instance: its class and [str(e)]. *)
Record exn := Exn { exn_cls : exn_class; exn_msg : string }.

Definition is_FileNotFoundError (e : exn) : bool :=
  match exn_cls e with FileNotFoundError => true | _ => false end.

(** What a call evaluates to: a value, or a raised exception. *)
Inductive result (A : Type) :=
| Ok (a : A)
| Raise (e : exn).
Arguments Ok {A} a.
Arguments Raise {A} e.

Definition is_ok {A} (r : result A) : bool :=
  match r with Ok _ => true | Raise _ => false end.

(** The double quote, which the document template uses around HTML
    attribute values. *)
Definition dq : string := String (ascii_of_nat 34) EmptyString.

(** [repr(p)] of a path in an [OSError] message, for paths without quotes,
    backslashes or non-printable characters. *)
Definition repr (s : string) : string := "'" +:+ s +:+ "'".

(** [s[i:]] for [0 <= i]. *)
Fixpoint slice_from (i : nat) (s : string) : string :=
  match i, s with
  | O, _ => s
  | S _, EmptyString => EmptyString
  | S i', String _ r => slice_from i' r
  end.

(** [s[:i]] for [0 <= i]. *)
Fixpoint slice_to (i : nat) (s : string) : string :=
  match i, s with
  | O, _ => EmptyString
  | S _, EmptyString => EmptyString
  | S i', String c r => String c (slice_to i' r)
  end.

(** [s.rfind(c)] for a one-character [c]: the highest index at which [c]
    occurs, [-1] when it does not occur.  [i] is the index of the head of
    [s], [last] the highest index found so far. *)
Fixpoint rfind_from (c : ascii) (s : string) (i last : Z) : Z :=
  match s with
  | EmptyString => last
  | String a r => rfind_from c r (i + 1) (if Ascii.eqb a c then i else last)
  end.

Definition rfind (c : ascii) (s : string) : Z := rfind_from c s 0 (-1).

(** [s.startswith(prefix)]. *)
Definition startswith (s prefix : string) : bool := String.prefix prefix s.

(** [s.endswith(suffix)]. *)
Definition endswith (s suffix : string) : bool :=
  let n := String.length s in
  let m := String.length suffix in
  (m <=? n)%nat && String.eqb (slice_from (n - m) s) suffix.

(** [sub in s]: [sub] occurs in [s] as a contiguous substring. *)
Fixpoint contains (sub s : string) : bool :=
  String.prefix sub s ||
  match s with
  | EmptyString => false
  | String _ r => contains sub r
  end.

(** [s.lstrip(c)] for a one-character [c]. *)
Fixpoint lstrip (c : ascii) (s : string) : string :=
  match s with
  | String a r => if Ascii.eqb a c then lstrip c r else s
  | EmptyString => EmptyString
  end.

(** [s.split(c)] for a one-character separator [c].  [cur] holds the
    characters of the current field, last one first. *)
Fixpoint split_from (c : ascii) (s : string) (cur : list ascii) : list string :=
  match s with
  | EmptyString => [string_of_list_ascii (rev cur)]
  | String a r =>
      if Ascii.eqb a c
      then string_of_list_ascii (rev cur) :: split_from c r []
      else split_from c r (a :: cur)
  end.

Definition split (c : ascii) (s : string) : list string := split_from c s [].

(** [sep.join(parts)]. *)
Definition join (sep : string) (parts : list string) : string :=
  String.concat sep parts.

(** [posixpath.basename]:
    [i = p.rfind('/') + 1; return p[i:]]. *)
Definition basename (p : string) : string :=
  let i := rfind "/" p + 1 in
  slice_from (Z.to_nat i) p.

(** [html.escape(s)] of the standard library (with [quote=True]): the
    escaping the specification speaks of.  The program never calls it; it
    is here to state what an escaped display name would look like. *)
Fixpoint html_escape (s : string) : string :=
  match s with
  | EmptyString => EmptyString
  | String c r =>
      (if Ascii.eqb c "&" then "&amp;"
       else if Ascii.eqb c "<" then "&lt;"
       else if Ascii.eqb c ">" then "&gt;"
       else if Ascii.eqb c (ascii_of_nat 34) then "&quot;"
       else if Ascii.eqb c "'" then "&#x27;"
       else String c EmptyString) +:+ html_escape r
  end.

End Py.

Import Py.

(* ===================================================================== *)
(** ** pathlib: what [Path(p).with_suffix(s)] and [str] do *)
(* ===================================================================== *)

Module PurePosixPath.

(** A parsed path: its root (empty, one slash or two) and its components.
    pathlib keeps the root as the first element of [_parts]; here [parts]
    holds the components after it. *)
Record t := Path_ { root : string; parts : list string }.

(** [_PosixFlavour.splitroot]: the root and the rest.  Exactly two leading
    slashes are kept as a root of their own, any other number is one. *)
Definition splitroot (part : string) : string * string :=
  match part with
  | String "/" _ =>
      let stripped_part := lstrip "/" part in
      if (String.length part - String.length stripped_part =? 2)%nat
      then ("//", stripped_part)
      else ("/", stripped_part)
  | _ => (EmptyString, part)
  end.

(** A component that [parse_parts] keeps: neither empty nor a single dot. *)
Definition kept (x : string) : bool :=
  negb (String.eqb x EmptyString) && negb (String.eqb x ".").

(** [Path(p)] for one [str] argument ([parse_parts] on a one-element
    list): split the rest on slashes and drop empty and dot components. *)
Definition Path (p : string) : t :=
  let '(r, rel) := splitroot p in
  {| root := r; parts := List.filter kept (split "/" rel) |}.

(** [PurePath.name]: the final component, empty when there is none. *)
Definition name (p : t) : string := List.last (parts p) EmptyString.

(** [PurePath.suffix]:
    [i = name.rfind('.')]; [name[i:]] if [0 < i < len(name) - 1],
    else the empty string. *)
Definition suffix (p : t) : string :=
  let nm := name p in
  let i := rfind "." nm in
  if (0 <? i) && (i <? Z.of_nat (String.length nm) - 1)
  then slice_from (Z.to_nat i) nm
  else EmptyString.

(** [str(path)]: root and components joined by slashes; a path with
    neither is a single dot. *)
Definition str (p : t) : string :=
  let s := root p +:+ join "/" (parts p) in
  if String.eqb s EmptyString then "." else s.

(** [PurePath.with_suffix(suffix)]. *)
Definition with_suffix (p : t) (sfx : string) : result t :=
  if contains "/" sfx then
    Raise (Exn ValueError ("Invalid suffix " +:+ repr sfx))
  else if (negb (String.eqb sfx EmptyString) && negb (startswith sfx "."))
          || String.eqb sfx "." then
    Raise (Exn ValueError ("Invalid suffix " +:+ repr sfx))
  else
    let nm := name p in
    if String.eqb nm EmptyString then
      Raise (Exn ValueError
               ("PosixPath(" +:+ repr (str p) +:+ ") has an empty name"))
    else
      let old_suffix := suffix p in
      let nm' :=
        if String.eqb old_suffix EmptyString
        then nm +:+ sfx
        else slice_to (String.length nm - String.length old_suffix) nm +:+ sfx in
      Ok {| root := root p; parts := List.removelast (parts p) ++ [nm'] |}.

End PurePosixPath.

(* ===================================================================== *)
(** ** The file system behind [os.path.exists] and [open] *)
(* ===================================================================== *)

Module OS.

(** What a path names.  A regular file is kept at the level of Python's
    text layer: [TextFile s] holds the text that
    [open(p, 'r', encoding='utf-8').read()] returns and that
    [open(p, 'w', encoding='utf-8').write(s)] leaves; [BinaryFile m] is a
    regular file whose bytes are not valid UTF-8, [m] being the message of
    the [UnicodeDecodeError] that reading it raises. *)
Inductive node :=
| TextFile (text : string)
| BinaryFile (decode_error : string)
| Directory.

(** A completed transfer of file contents. *)
Inductive io_event :=
| ReadFrom (path : string)
| WrittenTo (path : string) (text : string).

(** The world a conversion runs in.
    - [files]: the entries [os.stat] reaches, by the path as the program
      spells it.  A path is a name here: two spellings of one file
      ([./a.py] and [a.py]) and links are not told apart from different
      files, so what is said about files other than the one written holds
      for worlds without such aliases.
    - [read_denied]: the paths [open(p, 'r')] is refused at for want of
      permission: on the entry itself, or, for a path without entry, on a
      directory above it, in which case [os.stat] is refused too.
    - [write_denied]: the paths [open(p, 'w')] is refused at for want of
      permission.  A missing directory to create the file in, and a write
      that fails after the file was opened and emptied, are not modelled:
      what is said of a failed write holds for a failure at [open].
    - [trace]: the transfers done so far, oldest first.
    - [launch_error]: what asking the desktop to open a file raises, if it
      raises ([FileNotFoundError] from [subprocess.run] when the opener is
      not installed, [OSError] from [os.startfile]). *)
Record world := World {
  files : gmap string node;
  read_denied : gset string;
  write_denied : gset string;
  trace : list io_event;
  launch_error : option exn
}.

(** The world after one more transfer. *)
Definition log (e : io_event) (w : world) : world :=
  {| files := files w; read_denied := read_denied w;
     write_denied := write_denied w; trace := trace w ++ [e];
     launch_error := launch_error w |}.

(** The world in which [p] is a regular file that holds [s]. *)
Definition put (p s : string) (w : world) : world :=
  {| files := <[p := TextFile s]> (files w); read_denied := read_denied w;
     write_denied := write_denied w; trace := trace w;
     launch_error := launch_error w |}.

(** [os.path.exists(p)]: whether [os.stat(p)] succeeds. *)
Definition exists_ (w : world) (p : string) : bool :=
  bool_decide (is_Some (files w !! p)).

(** The paths [p] lies under, as it spells them: its prefixes that end
    before a slash.  [seen] holds the characters passed, last one first. *)
Fixpoint ancestors_from (seen : list ascii) (p : string) : list string :=
  match p with
  | EmptyString => []
  | String c r =>
      (if Ascii.eqb c "/" then [string_of_list_ascii (rev seen)] else [])
      ++ ancestors_from (c :: seen) r
  end.

Definition ancestors (p : string) : list string := ancestors_from [] p.

(** [p] goes through a regular file as if it were a directory. *)
Definition under_a_file (w : world) (p : string) : bool :=
  existsb
    (fun d =>
       match files w !! d with
       | Some (TextFile _) | Some (BinaryFile _) => true
       | _ => false
       end)
    (ancestors p).

(** [with open(p, 'r', encoding='utf-8') as f: code = f.read()].  A path
    without entry is refused by [open] for the reason [os.stat] fails: a
    null character in it, a regular file on the way, no permission, or,
    when none of these, no such file.  Other refusals of the system (a
    name that is too long, a loop of links) are not modelled. *)
Definition read_text (p : string) (w : world) : world * result string :=
  match files w !! p with
  | None =>
      if contains (String (ascii_of_nat 0) EmptyString) p then
        (w, Raise (Exn ValueError "embedded null byte"))
      else if under_a_file w p then
        (w, Raise (Exn NotADirectoryError
                     ("[Errno 20] Not a directory: " +:+ repr p)))
      else if bool_decide (p ∈ read_denied w) then
        (w, Raise (Exn PermissionError
                     ("[Errno 13] Permission denied: " +:+ repr p)))
      else
        (w, Raise (Exn FileNotFoundError
                     ("[Errno 2] No such file or directory: " +:+ repr p)))
  | Some Directory =>
      (w, Raise (Exn IsADirectoryError
                   ("[Errno 21] Is a directory: " +:+ repr p)))
  | Some f =>
      if bool_decide (p ∈ read_denied w) then
        (w, Raise (Exn PermissionError
                     ("[Errno 13] Permission denied: " +:+ repr p)))
      else
        match f with
        | TextFile s => (log (ReadFrom p) w, Ok s)
        | BinaryFile m => (w, Raise (Exn UnicodeDecodeError m))
        | Directory =>
            (w, Raise (Exn IsADirectoryError
                         ("[Errno 21] Is a directory: " +:+ repr p)))
        end
  end.

(** [with open(p, 'w', encoding='utf-8') as f: f.write(s)]: creates the
    file or replaces what it held.  The failures are those of [open]: the
    path is a directory, or may not be written. *)
Definition write_text (p : string) (s : string) (w : world)
    : world * result unit :=
  match files w !! p with
  | Some Directory =>
      (w, Raise (Exn IsADirectoryError
                   ("[Errno 21] Is a directory: " +:+ repr p)))
  | _ =>
      if bool_decide (p ∈ write_denied w) then
        (w, Raise (Exn PermissionError
                     ("[Errno 13] Permission denied: " +:+ repr p)))
      else (log (WrittenTo p s) (put p s w), Ok tt)
  end.

End OS.

(* ===================================================================== *)
(** ** pygments: the external highlighter *)
(* ===================================================================== *)

Module Pygments.

(** The lexer classes the program instantiates. *)
Inductive Lexer := PythonLexer.

(** The options the program passes to [HtmlFormatter]. *)
Record HtmlFormatter := {
  style : string;
  linenos : bool;
  cssclass : string;
  hl_lines : list nat
}.

(** The type of [pygments.highlight(code, lexer, formatter)]: the markup
    of the highlighted code, or an exception of the library. *)
Definition highlight_fn : Type :=
  string -> Lexer -> HtmlFormatter -> result string.

End Pygments.

Import Pygments.

(* ===================================================================== *)
(** ** highlight.py: the command line front end *)
(* ===================================================================== *)

Module CLI.

(** [MONOKAI_CSS] of [highlight.py]. *)
Definition MONOKAI_CSS : string :=
"
/* Main style */
body {
    font-family: 'Fira Code', 'Consolas', 'Monaco', 'Courier New', monospace;
    background-color: #272822;
    color: #f8f8f2;
    margin: 0;
    padding: 20px;
    line-height: 1.6;
}

/* Code container */
.code-container {
    background-color: #272822;
    border-radius: 8px;
    box-shadow: 0 4px 6px rgba(0, 0, 0, 0.3);
    overflow: hidden;
    max-width: 100%;
    margin: 0 auto;
}

/* File header */
.file-header {
    background-color: #1e1f1c;
    padding: 10px 15px;
    border-bottom: 1px solid #3e3d32;
    color: #75715e;
    font-size: 14px;
    font-weight: bold;
}

/* Scroll */
.code-wrapper {
    overflow-x: auto;
    padding: 20px;
}

/* Table with line numbers */
.highlight table {
    border-spacing: 0;
    border-collapse: separate;
    width: 100%;
}

.highlight pre {
    margin: 0;
    padding: 0;
    background: none;
    font-size: 14px;
}

/* Line numbers */
.highlight td.linenos {
    padding-right: 15px;
    color: #90908a;
    text-align: right;
    user-select: none;
    border-right: 1px solid #3e3d32;
}

.highlight td.code {
    padding-left: 15px;
}

/* Code highlighting styles (Monokai) */
.highlight .c { color: #75715e } /* Comment */
.highlight .err { color: #960050; background-color: #1e0010 } /* Error */
.highlight .k { color: #66d9ef } /* Keyword */
.highlight .l { color: #ae81ff } /* Literal */
.highlight .n { color: #f8f8f2 } /* Name */
.highlight .o { color: #f92672 } /* Operator */
.highlight .p { color: #f8f8f2 } /* Punctuation */
.highlight .cm { color: #75715e } /* Comment.Multiline */
.highlight .cp { color: #75715e } /* Comment.Preproc */
.highlight .c1 { color: #75715e } /* Comment.Single */
.highlight .cs { color: #75715e } /* Comment.Special */
.highlight .ge { font-style: italic } /* Generic.Emph */
.highlight .gs { font-weight: bold } /* Generic.Strong */
.highlight .kc { color: #66d9ef } /* Keyword.Constant */
.highlight .kd { color: #66d9ef } /* Keyword.Declaration */
.highlight .kn { color: #f92672 } /* Keyword.Namespace */
.highlight .kp { color: #66d9ef } /* Keyword.Pseudo */
.highlight .kr { color: #66d9ef } /* Keyword.Reserved */
.highlight .kt { color: #66d9ef } /* Keyword.Type */
.highlight .ld { color: #e6db74 } /* Literal.Date */
.highlight .m { color: #ae81ff } /* Literal.Number */
.highlight .s { color: #e6db74 } /* Literal.String */
.highlight .na { color: #a6e22e } /* Name.Attribute */
.highlight .nb { color: #f8f8f2 } /* Name.Builtin */
.highlight .nc { color: #a6e22e } /* Name.Class */
.highlight .no { color: #66d9ef } /* Name.Constant */
.highlight .nd { color: #a6e22e } /* Name.Decorator */
.highlight .ni { color: #f8f8f2 } /* Name.Entity */
.highlight .ne { color: #a6e22e } /* Name.Exception */
.highlight .nf { color: #a6e22e } /* Name.Function */
.highlight .nl { color: #f8f8f2 } /* Name.Label */
.highlight .nn { color: #f8f8f2 } /* Name.Namespace */
.highlight .nx { color: #a6e22e } /* Name.Other */
.highlight .py { color: #f8f8f2 } /* Name.Property */
.highlight .nt { color: #f92672 } /* Name.Tag */
.highlight .nv { color: #f8f8f2 } /* Name.Variable */
.highlight .ow { color: #f92672 } /* Operator.Word */
.highlight .w { color: #f8f8f2 } /* Text.Whitespace */
.highlight .mf { color: #ae81ff } /* Literal.Number.Float */
.highlight .mh { color: #ae81ff } /* Literal.Number.Hex */
.highlight .mi { color: #ae81ff } /* Literal.Number.Integer */
.highlight .mo { color: #ae81ff } /* Literal.Number.Oct */
.highlight .sb { color: #e6db74 } /* Literal.String.Backtick */
.highlight .sc { color: #e6db74 } /* Literal.String.Char */
.highlight .sd { color: #e6db74 } /* Literal.String.Doc */
.highlight .s2 { color: #e6db74 } /* Literal.String.Double */
.highlight .se { color: #ae81ff } /* Literal.String.Escape */
.highlight .sh { color: #e6db74 } /* Literal.String.Heredoc */
.highlight .si { color: #e6db74 } /* Literal.String.Interpol */
.highlight .sx { color: #e6db74 } /* Literal.String.Other */
.highlight .sr { color: #e6db74 } /* Literal.String.Regex */
.highlight .s1 { color: #e6db74 } /* Literal.String.Single */
.highlight .ss { color: #e6db74 } /* Literal.String.Symbol */
.highlight .bp { color: #f8f8f2 } /* Name.Builtin.Pseudo */
.highlight .vc { color: #f8f8f2 } /* Name.Variable.Class */
.highlight .vg { color: #f8f8f2 } /* Name.Variable.Global */
.highlight .vi { color: #f8f8f2 } /* Name.Variable.Instance */
.highlight .il { color: #ae81ff } /* Literal.Number.Integer.Long */
".

(** The f-string [html_template]: [name] is
    [os.path.basename(input_file)], substituted as it is, [css] is
    [MONOKAI_CSS] and [highlighted_code] the fragment pygments returned. *)
Definition html_template (name css highlighted_code : string) : string :=
  "<!DOCTYPE html>
<html lang=" +:+ dq +:+ "en" +:+ dq +:+ ">
<head>
    <meta charset=" +:+ dq +:+ "UTF-8" +:+ dq +:+ ">
    <meta name=" +:+ dq +:+ "viewport" +:+ dq +:+ " content=" +:+ dq +:+ "width=device-width, initial-scale=1.0" +:+ dq +:+ ">
    <title>" +:+ name +:+ " - Python Code</title>
    <link href=" +:+ dq +:+ "https://fonts.googleapis.com/css2?family=Fira+Code:wght@400;500&display=swap" +:+ dq +:+ " rel=" +:+ dq +:+ "stylesheet" +:+ dq +:+ ">
    <style>
        " +:+ css +:+ "
    </style>
</head>
<body>
    <div class=" +:+ dq +:+ "code-container" +:+ dq +:+ ">
        <div class=" +:+ dq +:+ "file-header" +:+ dq +:+ ">" +:+ name +:+ "</div>
        <div class=" +:+ dq +:+ "code-wrapper" +:+ dq +:+ ">
            " +:+ highlighted_code +:+ "
        </div>
    </div>
</body>
</html>".

(** How a run of the script ends: the lines printed, the exit status
    and the world it leaves. *)
Record outcome := Outcome {
  stdout : list string;
  exit_code : Z;
  final : OS.world
}.

(** Lines 194 to 196 of [generate_html], the output file name:
    [output_file] when it is given, else
    [Path(input_file).with_suffix('.html')], read back as a [str]. *)
Definition target_path (input_file : string) (output_file : option string)
    : result string :=
  match output_file with
  | Some o => Ok o
  | None =>
      match PurePosixPath.with_suffix
              (PurePosixPath.Path input_file) ".html" with
      | Ok q => Ok (PurePosixPath.str q)
      | Raise e => Raise e
      end
  end.

Section WithHighlighter.

Variable highlight : highlight_fn.

(** Lines 161 to 192 of [generate_html]: a fresh lexer and formatter,
    the call to pygments, and the document built around its result. *)
Definition render (code : string) (input_file : string) : result string :=
  let lexer := PythonLexer in
  let formatter :=
    {| style := "monokai"; linenos := true;
       cssclass := "highlight"; hl_lines := [] |} in
  match highlight code lexer formatter with
  | Raise e => Raise e
  | Ok highlighted_code =>
      Ok (html_template (basename input_file) MONOKAI_CSS highlighted_code)
  end.

(** [generate_html(input_file, output_file=None)]: returns the path of
    the file it wrote, as a [str]. *)
Definition generate_html (input_file : string) (output_file : option string)
    (w : OS.world) : OS.world * result string :=
  if negb (OS.exists_ w input_file) then
    (w, Raise (Exn FileNotFoundError ("File '" +:+ input_file +:+ "' not found")))
  else
    match OS.read_text input_file w with
    | (w1, Raise e) => (w1, Raise e)
    | (w1, Ok code) =>
        match render code input_file with
        | Raise e => (w1, Raise e)
        | Ok html =>
            match target_path input_file output_file with
            | Raise e => (w1, Raise e)
            | Ok out =>
                match OS.write_text out html w1 with
                | (w2, Raise e) => (w2, Raise e)
                | (w2, Ok _) => (w2, Ok out)
                end
            end
        end
    end.

(** [main()], with [argv] for [sys.argv]. *)
Definition main (argv : list string) (w : OS.world) : outcome :=
  if (List.length argv <? 2)%nat then
    {| stdout := ["Usage: python highlight.py <path_to_file.py>";
                  "Example: python highlight.py main.py"];
       exit_code := 1; final := w |}
  else
    let input_file := List.nth 1 argv EmptyString in
    match generate_html input_file None w with
    | (w', Ok output_file) =>
        {| stdout := ["[+] HTML file successfully created: " +:+ output_file;
                      "[+] Open it in a browser to view"];
           exit_code := 0; final := w' |}
    | (w', Raise e) =>
        if is_FileNotFoundError e then
          {| stdout := ["[-] Error: " +:+ exn_msg e];
             exit_code := 1; final := w' |}
        else
          {| stdout := ["[-] An error occurred: " +:+ exn_msg e];
             exit_code := 1; final := w' |}
    end.

End WithHighlighter.

End CLI.

(* ===================================================================== *)
(** ** gui_highlighter.py: the PyQt6 front end *)
(* ===================================================================== *)

Module GUI.

(** [MONOKAI_CSS] of [gui_highlighter.py]. *)
Definition MONOKAI_CSS : string :=
"
/* Main style */
body {
    font-family: 'Fira Code', 'Consolas', 'Monaco', 'Courier New', monospace;
    background-color: #272822;
    color: #f8f8f2;
    margin: 0;
    padding: 20px;
    line-height: 1.6;
}

/* Code container */
.code-container {
    background-color: #272822;
    border-radius: 8px;
    box-shadow: 0 4px 6px rgba(0, 0, 0, 0.3);
    overflow: hidden;
    max-width: 100%;
    margin: 0 auto;
}

/* File header */
.file-header {
    background-color: #1e1f1c;
    padding: 10px 15px;
    border-bottom: 1px solid #3e3d32;
    color: #75715e;
    font-size: 14px;
    font-weight: bold;
}

/* Scroll */
.code-wrapper {
    overflow-x: auto;
    padding: 20px;
}

/* Table with line numbers */
.highlight table {
    border-spacing: 0;
    border-collapse: separate;
    width: 100%;
}

.highlight pre {
    margin: 0;
    padding: 0;
    background: none;
    font-size: 14px;
}

/* Line numbers */
.highlight td.linenos {
    padding-right: 15px;
    color: #90908a;
    text-align: right;
    user-select: none;
    border-right: 1px solid #3e3d32;
}

.highlight td.code {
    padding-left: 15px;
}

/* Code highlighting styles (Monokai) */
.highlight .c { color: #75715e }
.highlight .err { color: #960050; background-color: #1e0010 }
.highlight .k { color: #66d9ef }
.highlight .l { color: #ae81ff }
.highlight .n { color: #f8f8f2 }
.highlight .o { color: #f92672 }
.highlight .p { color: #f8f8f2 }
.highlight .cm { color: #75715e }
.highlight .cp { color: #75715e }
.highlight .c1 { color: #75715e }
.highlight .cs { color: #75715e }
.highlight .ge { font-style: italic }
.highlight .gs { font-weight: bold }
.highlight .kc { color: #66d9ef }
.highlight .kd { color: #66d9ef }
.highlight .kn { color: #f92672 }
.highlight .kp { color: #66d9ef }
.highlight .kr { color: #66d9ef }
.highlight .kt { color: #66d9ef }
.highlight .ld { color: #e6db74 }
.highlight .m { color: #ae81ff }
.highlight .s { color: #e6db74 }
.highlight .na { color: #a6e22e }
.highlight .nb { color: #f8f8f2 }
.highlight .nc { color: #a6e22e }
.highlight .no { color: #66d9ef }
.highlight .nd { color: #a6e22e }
.highlight .ni { color: #f8f8f2 }
.highlight .ne { color: #a6e22e }
.highlight .nf { color: #a6e22e }
.highlight .nl { color: #f8f8f2 }
.highlight .nn { color: #f8f8f2 }
.highlight .nx { color: #a6e22e }
.highlight .py { color: #f8f8f2 }
.highlight .nt { color: #f92672 }
.highlight .nv { color: #f8f8f2 }
.highlight .ow { color: #f92672 }
.highlight .w { color: #f8f8f2 }
.highlight .mf { color: #ae81ff }
.highlight .mh { color: #ae81ff }
.highlight .mi { color: #ae81ff }
.highlight .mo { color: #ae81ff }
.highlight .sb { color: #e6db74 }
.highlight .sc { color: #e6db74 }
.highlight .sd { color: #e6db74 }
.highlight .s2 { color: #e6db74 }
.highlight .se { color: #ae81ff }
.highlight .sh { color: #e6db74 }
.highlight .si { color: #e6db74 }
.highlight .sx { color: #e6db74 }
.highlight .sr { color: #e6db74 }
.highlight .s1 { color: #e6db74 }
.highlight .ss { color: #e6db74 }
.highlight .bp { color: #f8f8f2 }
.highlight .vc { color: #f8f8f2 }
.highlight .vg { color: #f8f8f2 }
.highlight .vi { color: #f8f8f2 }
.highlight .il { color: #ae81ff }
".

(** The f-string [html_template]: [name] is
    [os.path.basename(input_file)], substituted as it is, [css] is
    [MONOKAI_CSS] and [highlighted_code] the fragment pygments returned. *)
Definition html_template (name css highlighted_code : string) : string :=
  "<!DOCTYPE html>
<html lang=" +:+ dq +:+ "en" +:+ dq +:+ ">
<head>
    <meta charset=" +:+ dq +:+ "UTF-8" +:+ dq +:+ ">
    <meta name=" +:+ dq +:+ "viewport" +:+ dq +:+ " content=" +:+ dq +:+ "width=device-width, initial-scale=1.0" +:+ dq +:+ ">
    <title>" +:+ name +:+ " - Python Code</title>
    <link href=" +:+ dq +:+ "https://fonts.googleapis.com/css2?family=Fira+Code:wght@400;500&display=swap" +:+ dq +:+ " rel=" +:+ dq +:+ "stylesheet" +:+ dq +:+ ">
    <style>
        " +:+ css +:+ "
    </style>
</head>
<body>
    <div class=" +:+ dq +:+ "code-container" +:+ dq +:+ ">
        <div class=" +:+ dq +:+ "file-header" +:+ dq +:+ ">" +:+ name +:+ "</div>
        <div class=" +:+ dq +:+ "code-wrapper" +:+ dq +:+ ">
            " +:+ highlighted_code +:+ "
        </div>
    </div>
</body>
</html>".

(** A [QMessageBox] that was shown: its kind, title and text. *)
Inductive dialog :=
| warning (title text : string)
| critical (title text : string)
| question (title text : string).

(** The button a [QMessageBox.question] returns. *)
Inductive StandardButton := Yes | No.

(** The two style sheets of the drop zone: [update_style] and
    [set_drag_over_style]. *)
Inductive zone_style := PlainBorder | DragOverBorder.

(** A request to the desktop to open a file: [os.startfile(path)] or
    [subprocess.run(argv)]. *)
Inductive launch :=
| startfile (path : string)
| run (argv : list string).

(** What the window shows and what it has asked of the desktop: the
    status line, the drop zone's title and style, the message boxes shown
    so far and the launches requested so far, oldest first. *)
Record window := Window {
  status_label : string;
  title_label : string;
  drop_zone_style : zone_style;
  dialogs : list dialog;
  launched : list launch
}.

(** The window after [HighlighterWindow.__init__]. *)
Definition initial : window :=
  {| status_label := "Ready";
     title_label := "Drag & drop .py file here";
     drop_zone_style := PlainBorder;
     dialogs := [];
     launched := [] |}.

Definition set_status (text : string) (g : window) : window :=
  {| status_label := text; title_label := title_label g;
     drop_zone_style := drop_zone_style g; dialogs := dialogs g;
     launched := launched g |}.

Definition show (d : dialog) (g : window) : window :=
  {| status_label := status_label g; title_label := title_label g;
     drop_zone_style := drop_zone_style g; dialogs := dialogs g ++ [d];
     launched := launched g |}.

Definition request (l : launch) (g : window) : window :=
  {| status_label := status_label g; title_label := title_label g;
     drop_zone_style := drop_zone_style g; dialogs := dialogs g;
     launched := launched g ++ [l] |}.

(** [DropZoneWidget.set_drag_over_style]. *)
Definition set_drag_over_style (g : window) : window :=
  {| status_label := status_label g; title_label := "Drop file here";
     drop_zone_style := DragOverBorder; dialogs := dialogs g;
     launched := launched g |}.

(** [DropZoneWidget.reset_style]. *)
Definition reset_style (g : window) : window :=
  {| status_label := status_label g;
     title_label := "Drag & drop .py file here";
     drop_zone_style := PlainBorder; dialogs := dialogs g;
     launched := launched g |}.

(** The window is idle: no drag is shown over the drop zone. *)
Definition idle (g : window) : Prop :=
  drop_zone_style g = PlainBorder /\
  title_label g = "Drag & drop .py file here".

(** [DropZoneWidget.dragEnterEvent], with the local paths of the URLs the
    drag carries. *)
Definition dragEnterEvent (urls : list string) (g : window) : window :=
  match urls with
  | [] => g
  | _ :: _ => set_drag_over_style g
  end.

(** [DropZoneWidget.dragLeaveEvent]. *)
Definition dragLeaveEvent (g : window) : window := reset_style g.

(** [HighlighterWindow.open_in_browser], with [platform] for
    [sys.platform]: the request made.  Whether making it raises is the
    world's [launch_error]. *)
Definition open_in_browser (platform : string) (file_path : string)
    (g : window) : window :=
  if String.eqb platform "win32" then request (startfile file_path) g
  else if String.eqb platform "darwin" then request (run ["open"; file_path]) g
  else request (run ["xdg-open"; file_path]) g.

(** The two [except] clauses of [process_file]: what the window shows for
    an exception raised inside its [try]. *)
Definition report_failure (e : exn) (g : window) : window :=
  if is_FileNotFoundError e then
    set_status "Error: file not found"
      (show (critical "Error" "File not found") g)
  else
    set_status "Error during processing"
      (show (critical "Error" ("An error occurred:
" +:+ exn_msg e)) g).

(** Line 440 of [generate_html], the output file name:
    [Path(input_file).with_suffix('.html')], read back as a [str]. *)
Definition target_path (input_file : string) : result string :=
  match PurePosixPath.with_suffix
          (PurePosixPath.Path input_file) ".html" with
  | Ok q => Ok (PurePosixPath.str q)
  | Raise e => Raise e
  end.

Section WithHighlighter.

Variable highlight : highlight_fn.
Variable platform : string.

(** Lines 406 to 437 of [generate_html]: a fresh lexer and formatter,
    the call to pygments, and the document built around its result. *)
Definition render (code : string) (input_file : string) : result string :=
  let lexer := PythonLexer in
  let formatter :=
    {| style := "monokai"; linenos := true;
       cssclass := "highlight"; hl_lines := [] |} in
  match highlight code lexer formatter with
  | Raise e => Raise e
  | Ok highlighted_code =>
      Ok (html_template (basename input_file) MONOKAI_CSS highlighted_code)
  end.

(** [HighlighterWindow.generate_html(input_file)]: returns the path of
    the file it wrote, as a [str]. *)
Definition generate_html (input_file : string) (w : OS.world)
    : OS.world * result string :=
  match OS.read_text input_file w with
  | (w1, Raise e) => (w1, Raise e)
  | (w1, Ok code) =>
      match render code input_file with
      | Raise e => (w1, Raise e)
      | Ok html =>
          match target_path input_file with
          | Raise e => (w1, Raise e)
          | Ok out =>
              match OS.write_text out html w1 with
              | (w2, Raise e) => (w2, Raise e)
              | (w2, Ok _) => (w2, Ok out)
              end
          end
      end
  end.

(** [HighlighterWindow.process_file(file_path)]; [reply] is the button
    the user presses if the success question is shown.  The launch stands
    inside the [try] like the conversion, so an exception it raises reaches
    the same two handlers. *)
Definition process_file (file_path : string) (reply : StandardButton)
    (g : window) (w : OS.world) : window * OS.world :=
  let g1 := set_status ("Processing file: " +:+ basename file_path) g in
  match generate_html file_path w with
  | (w', Ok output_file) =>
      let g2 := set_status ("Successfully created: " +:+ basename output_file) g1 in
      let g3 := show (question "Success!"
                        ("HTML file successfully created:
" +:+ output_file +:+ "

Open it in browser?")) g2 in
      match reply with
      | Yes =>
          let g4 := open_in_browser platform output_file g3 in
          match OS.launch_error w' with
          | None => (g4, w')
          | Some e => (report_failure e g4, w')
          end
      | No => (g3, w')
      end
  | (w', Raise e) => (report_failure e g1, w')
  end.

(** [HighlighterWindow.select_file]; [file_path] is what the file dialog
    returns, empty when it is cancelled. *)
Definition select_file (file_path : string) (reply : StandardButton)
    (g : window) (w : OS.world) : window * OS.world :=
  if String.eqb file_path EmptyString then (g, w)
  else process_file file_path reply g w.

(** [DropZoneWidget.dropEvent]; [urls] holds [toLocalFile()] of each URL
    of the drop. *)
Definition dropEvent (urls : list string) (reply : StandardButton)
    (g : window) (w : OS.world) : window * OS.world :=
  let g0 := reset_style g in
  match urls with
  | [] => (g0, w)
  | file_path :: _ =>
      if endswith file_path ".py" then process_file file_path reply g0 w
      else
        (show (warning "Error" "Please select a file with .py extension") g0, w)
  end.

(** What the event loop of [main] ([app.exec()]) hands to the window: a
    drag entering or leaving the drop zone, a drop, or a click on the
    select button answered by the file dialog.  [urls] are the local paths
    of the URLs carried, [reply] the button pressed if the success question
    comes up, [file_path] what the file dialog returns. *)
Inductive event :=
| DragEnter (urls : list string)
| DragLeave
| Drop (urls : list string) (reply : StandardButton)
| SelectClicked (file_path : string) (reply : StandardButton).

(** The handler the event loop calls for one event. *)
Definition handle (e : event) (g : window) (w : OS.world) : window * OS.world :=
  match e with
  | DragEnter urls => (dragEnterEvent urls g, w)
  | DragLeave => (dragLeaveEvent g, w)
  | Drop urls reply => dropEvent urls reply g w
  | SelectClicked file_path reply => select_file file_path reply g w
  end.

(** The event loop on a sequence of events, oldest first. *)
Fixpoint exec (events : list event) (g : window) (w : OS.world)
    : window * OS.world :=
  match events with
  | [] => (g, w)
  | e :: rest => let '(g', w') := handle e g w in exec rest g' w'
  end.

End WithHighlighter.

End GUI.

(* ===================================================================== *)
(** ** Vocabulary of the properties *)
(* ===================================================================== *)

(** The formatter both front ends build for every conversion:
    [HtmlFormatter(style='monokai', linenos=True, cssclass='highlight',
    hl_lines=[])]. *)
Definition formatter_options : HtmlFormatter :=
  {| style := "monokai"; linenos := true;
     cssclass := "highlight"; hl_lines := [] |}.

(** A call of [generate_html]: the one of [highlight.py], with its optional
    [output_file], or the method of the window, which has none. *)
Inductive call :=
| cli_call (output_file : option string)
| gui_call.

(** Two calls go to the same module. *)
Definition same_module (c1 c2 : call) : Prop :=
  match c1, c2 with
  | cli_call _, cli_call _ => True
  | gui_call, gui_call => True
  | _, _ => False
  end.

(** The style sheet the called module embeds. *)
Definition stylesheet_of (c : call) : string :=
  match c with
  | cli_call _ => CLI.MONOKAI_CSS
  | gui_call => GUI.MONOKAI_CSS
  end.

(** The document template of the called module. *)
Definition html_template_of (c : call) : string -> string -> string -> string :=
  match c with
  | cli_call _ => CLI.html_template
  | gui_call => GUI.html_template
  end.

(** The output file name the call derives. *)
Definition target_path_of (c : call) (input_file : string) : result string :=
  match c with
  | cli_call o => CLI.target_path input_file o
  | gui_call => GUI.target_path input_file
  end.

(** The HTML construction of the called module. *)
Definition render_of (highlight : highlight_fn) (c : call)
    (code input_file : string) : result string :=
  match c with
  | cli_call _ => CLI.render highlight code input_file
  | gui_call => GUI.render highlight code input_file
  end.

(** The call itself. *)
Definition generate_html_of (highlight : highlight_fn) (c : call)
    (input_file : string) (w : OS.world) : OS.world * result string :=
  match c with
  | cli_call o => CLI.generate_html highlight input_file o w
  | gui_call => GUI.generate_html highlight input_file w
  end.

(** The world after a conversion read [input] and wrote [html] to [out]. *)
Definition converted (input out html : string) (w : OS.world) : OS.world :=
  OS.log (OS.WrittenTo out html) (OS.put out html (OS.log (OS.ReadFrom input) w)).

(** [replace_suffix p old new]: [p] with its last [len(old)] characters cut
    off and [new] put in their place. *)
Definition replace_suffix (p old new : string) : string :=
  slice_to (String.length p - String.length old) p +:+ new.

(** The normal form pathlib gives a path string: [str(Path(p))]. *)
Definition normal_form (p : string) : string :=
  PurePosixPath.str (PurePosixPath.Path p).

(** The extension of a path: the suffix pathlib finds in its final
    component. *)
Definition extension (p : string) : string :=
  PurePosixPath.suffix (PurePosixPath.Path p).

(** The page title as the template writes it around a display name. *)
Definition title_element (name : string) : string :=
  "<title>" +:+ name +:+ " - Python Code</title>".

(** The file header as the template writes it around a display name. *)
Definition header_element (name : string) : string :=
  "<div class=" +:+ dq +:+ "file-header" +:+ dq +:+ ">" +:+ name +:+ "</div>".

(** The code region as the template writes it around the markup of
    pygments. *)
Definition code_region (highlighted_code : string) : string :=
  "<div class=" +:+ dq +:+ "code-wrapper" +:+ dq +:+ ">
            " +:+ highlighted_code +:+ "
        </div>".

(** The rule that styles the [err] class, which pygments gives to text its
    lexer does not recognise. *)
Definition error_rule : string :=
  ".highlight .err { color: #960050; background-color: #1e0010 }".

(** A line of CSS without the comment that follows its rule: the line up to
    the first blank followed by a comment opener, all of it when there is
    none. *)
Definition cut_comment (line : string) : string :=
  match String.index 0 " /*" line with
  | Some i => slice_to i line
  | None => line
  end.

(** A style sheet with the trailing comment of every line removed. *)
Definition strip_rule_comments (css : string) : string :=
  join (String (ascii_of_nat 10) EmptyString)
       (List.map cut_comment (split (ascii_of_nat 10) css)).

(** Closes a goal between closed terms by evaluating both sides. *)
Ltac by_evaluation := vm_compute; reflexivity.

(* ===================================================================== *)
(** ** Example data *)
(* ===================================================================== *)

(** A stand-in for pygments in the examples: the text, as it is, inside the
    block of the formatter's CSS class.  It never raises. *)
Definition plain_highlight : highlight_fn :=
  fun code _ formatter =>
    Ok ("<div class=" +:+ dq +:+ cssclass formatter +:+ dq +:+ "><pre>"
        +:+ code +:+ "</pre></div>").

(** A highlighter that always fails, as a library error would. *)
Definition failing_highlight : highlight_fn :=
  fun _ _ _ => Raise (Exn OtherException "lexer failure").

(** A world with two Python files of the same name and text in different
    directories, a file given by a dotted relative path, a file whose name
    holds characters HTML reserves, and an older output file. *)
Definition example_world : OS.world :=
  {| OS.files :=
       list_to_map
         [("foo/bar.py", OS.TextFile "print(1)");
          ("tmp/bar.py", OS.TextFile "print(1)");
          ("./bar.py", OS.TextFile "print(1)");
          ("a<b>&.py", OS.TextFile "x = 1");
          ("foo/bar.html", OS.TextFile "an older document");
          ("foo", OS.Directory);
          ("tmp", OS.Directory)];
     OS.read_denied := ∅;
     OS.write_denied := ∅;
     OS.trace := [];
     OS.launch_error := None |}.

(** The same world with the output path of [tmp/bar.py] closed to
    writing. *)
Definition locked_world : OS.world :=
  {| OS.files := OS.files example_world;
     OS.read_denied := ∅;
     OS.write_denied := {["tmp/bar.html"]};
     OS.trace := [];
     OS.launch_error := None |}.

(** The same world on a desktop without [xdg-open]: starting it raises
    [FileNotFoundError], as [subprocess.run] does for a missing program. *)
Definition no_opener_world : OS.world :=
  {| OS.files := OS.files example_world;
     OS.read_denied := ∅;
     OS.write_denied := ∅;
     OS.trace := [];
     OS.launch_error :=
       Some (Exn FileNotFoundError
               "[Errno 2] No such file or directory: 'xdg-open'") |}.

(* ===================================================================== *)
(** ** Facts about strings *)
(* ===================================================================== *)

Section StringFacts.

Lemma append_cons (c : ascii) (s t : string) :
  String c s +:+ t = String c (s +:+ t).
Proof. reflexivity. Qed.

Lemma append_nil_l (s : string) : EmptyString +:+ s = s.
Proof. reflexivity. Qed.

Lemma append_nil_r (s : string) : s +:+ EmptyString = s.
Proof.
  induction s as [|c s IH]; [reflexivity|].
  now rewrite append_cons, IH.
Qed.

Lemma append_assoc (a b c : string) : (a +:+ b) +:+ c = a +:+ (b +:+ c).
Proof.
  induction a as [|x a IH]; [reflexivity|].
  now rewrite !append_cons, IH.
Qed.

Lemma length_append (a b : string) :
  String.length (a +:+ b) = (String.length a + String.length b)%nat.
Proof.
  induction a as [|x a IH]; [reflexivity|].
  rewrite append_cons. simpl. now rewrite IH.
Qed.

Lemma append_eq_nil (a b : string) :
  a +:+ b = EmptyString -> a = EmptyString /\ b = EmptyString.
Proof. destruct a; [auto | rewrite append_cons; discriminate]. Qed.

Lemma slice_to_from (n : nat) (s : string) :
  slice_to n s +:+ slice_from n s = s.
Proof.
  revert s; induction n as [|n IH]; intros [|c s]; simpl; try reflexivity.
  now rewrite append_cons, IH.
Qed.

Lemma length_slice_from (n : nat) (s : string) :
  String.length (slice_from n s) = (String.length s - n)%nat.
Proof.
  revert s; induction n as [|n IH]; intros [|c s]; simpl; auto with arith.
Qed.

Lemma slice_to_append (a b : string) :
  slice_to (String.length a) (a +:+ b) = a.
Proof.
  induction a as [|x a IH]; [now destruct b|].
  rewrite append_cons. simpl. now rewrite IH.
Qed.

Lemma slice_from_append (a b : string) :
  slice_from (String.length a) (a +:+ b) = b.
Proof.
  induction a as [|x a IH]; [reflexivity|].
  rewrite append_cons. simpl. exact IH.
Qed.

(** Cutting [b] off the end of [a +:+ b] leaves [a]. *)
Lemma slice_to_append_cut (a b : string) :
  slice_to (String.length (a +:+ b) - String.length b) (a +:+ b) = a.
Proof.
  rewrite length_append.
  replace (String.length a + String.length b - String.length b)%nat
    with (String.length a) by lia.
  apply slice_to_append.
Qed.

Lemma endswith_append (a b : string) : endswith (a +:+ b) b = true.
Proof.
  unfold endswith. rewrite length_append.
  replace (String.length a + String.length b - String.length b)%nat
    with (String.length a) by lia.
  rewrite slice_from_append, String.eqb_refl, andb_true_r.
  apply Nat.leb_le; lia.
Qed.

Lemma prefix_append (a b : string) : String.prefix a (a +:+ b) = true.
Proof.
  induction a as [|x a IH]; [now destruct b|].
  rewrite append_cons. simpl.
  destruct (ascii_dec x x); [exact IH | congruence].
Qed.

Lemma contains_prefix (sub s : string) :
  String.prefix sub s = true -> contains sub s = true.
Proof. intros H. destruct s; cbn [contains]; rewrite H; reflexivity. Qed.

Lemma contains_append (pre sub post : string) :
  contains sub (pre +:+ sub +:+ post) = true.
Proof.
  induction pre as [|x pre IH].
  - rewrite append_nil_l. apply contains_prefix, prefix_append.
  - rewrite append_cons. cbn [contains]. rewrite IH. apply orb_true_r.
Qed.

Lemma join_snoc_append (sep : string) (xs : list string) (a b : string) :
  join sep (xs ++ [a +:+ b]) = join sep (xs ++ [a]) +:+ b.
Proof.
  unfold join.
  induction xs as [|x xs IH]; simpl; [reflexivity|].
  destruct (xs ++ [a +:+ b]) eqn:E1; [now destruct xs|].
  destruct (xs ++ [a]) eqn:E2; [now destruct xs|].
  rewrite IH, !append_assoc. reflexivity.
Qed.

End StringFacts.

(* ===================================================================== *)
(** ** Facts about pathlib *)
(* ===================================================================== *)

Section PathFacts.

Import PurePosixPath.

Lemma join_snoc_nonempty (sep : string) (xs : list string) (a : string) :
  a <> EmptyString -> join sep (xs ++ [a]) <> EmptyString.
Proof.
  intros Ha H.
  change a with (EmptyString +:+ a) in H.
  rewrite join_snoc_append in H.
  apply append_eq_nil in H as [_ H]. contradiction.
Qed.

Lemma str_snoc (r : string) (xs : list string) (a b : string) :
  a <> EmptyString ->
  str {| root := r; parts := xs ++ [a +:+ b] |}
  = str {| root := r; parts := xs ++ [a] |} +:+ b.
Proof.
  intros Ha. unfold str; cbn [root parts].
  assert (Hne : forall c, r +:+ join "/" (xs ++ [a +:+ c]) <> EmptyString).
  { intros c H. apply append_eq_nil in H as [_ H].
    rewrite join_snoc_append in H.
    apply append_eq_nil in H as [H _].
    now apply join_snoc_nonempty in H. }
  pose proof (Hne b) as H1. pose proof (Hne EmptyString) as H2.
  rewrite append_nil_r in H2.
  apply String.eqb_neq in H1, H2. rewrite H1, H2.
  now rewrite join_snoc_append, append_assoc.
Qed.

(** The name splits into a non-empty stem and the suffix. *)
Lemma name_stem_suffix (q : t) :
  name q <> EmptyString ->
  exists a, a <> EmptyString /\ name q = a +:+ suffix q /\
    (if String.eqb (suffix q) EmptyString
     then name q
     else slice_to (String.length (name q) - String.length (suffix q)) (name q))
    = a.
Proof.
  intros Hn. unfold suffix.
  destruct ((0 <? rfind "." (name q))%Z
            && (rfind "." (name q) <? Z.of_nat (String.length (name q)) - 1)%Z)
    eqn:E.
  - apply andb_true_iff in E as [E1 E2].
    apply Z.ltb_lt in E1, E2.
    set (i := Z.to_nat (rfind "." (name q))) in *.
    assert (Hi : (0 < i < String.length (name q))%nat) by lia.
    exists (slice_to i (name q)).
    assert (Hlen : (String.length (name q)
                    - String.length (slice_from i (name q)))%nat = i)
      by (rewrite length_slice_from; lia).
    split; [|split].
    + destruct i as [|i']; [lia|]. destruct (name q); [contradiction|].
      simpl. discriminate.
    + now rewrite slice_to_from.
    + rewrite Hlen.
      destruct (String.eqb_spec (slice_from i (name q)) EmptyString) as [Ee|_];
        [|reflexivity].
      apply (f_equal String.length) in Ee.
      rewrite length_slice_from in Ee. simpl in Ee. lia.
  - exists (name q). rewrite append_nil_r. auto.
Qed.

(** [with_suffix('.html')] on a path with a name: the text of the path
    loses its suffix and gains [.html]. *)
Lemma with_suffix_html (q : t) :
  name q <> EmptyString ->
  exists q' stem,
    with_suffix q ".html" = Ok q' /\
    str q = stem +:+ suffix q /\
    str q' = stem +:+ ".html".
Proof.
  intros Hn.
  destruct (name_stem_suffix q Hn) as (a & Ha & Hsplit & Hstem).
  assert (Hparts : parts q = List.removelast (parts q) ++ [name q]).
  { apply app_removelast_last. intros E. apply Hn. unfold name. now rewrite E. }
  unfold with_suffix.
  change (contains "/" ".html") with false.
  change (negb (String.eqb ".html" EmptyString) && negb (startswith ".html" ".")
          || String.eqb ".html" ".") with false.
  cbv iota.
  apply String.eqb_neq in Hn as Hn'. rewrite Hn'.
  destruct q as [r ps]; cbn [root parts] in *.
  eexists _, (str {| root := r; parts := List.removelast ps ++ [a] |}).
  split; [reflexivity|]. split.
  - rewrite Hparts at 1. rewrite Hsplit at 1. now apply str_snoc.
  - cbn [root parts].
    destruct (String.eqb (suffix {| root := r; parts := ps |}) EmptyString);
      rewrite Hstem; now apply str_snoc.
Qed.

End PathFacts.

(* ===================================================================== *)
(** ** Facts about the file system *)
(* ===================================================================== *)

Section WorldFacts.

Import OS.

Lemma exists_false (w : world) (p : string) :
  exists_ w p = false <-> files w !! p = None.
Proof.
  unfold exists_. rewrite bool_decide_eq_false, <- eq_None_not_Some.
  reflexivity.
Qed.

Lemma exists_true (w : world) (p : string) :
  exists_ w p = true <-> is_Some (files w !! p).
Proof. unfold exists_. apply bool_decide_eq_true. Qed.

(** A read hands back text exactly when the path names a readable text
    file; it then only adds itself to the trace. *)
Lemma read_text_ok (p : string) (w w1 : world) (s : string) :
  read_text p w = (w1, Ok s) <->
  files w !! p = Some (TextFile s) /\ (p ∉ read_denied w) /\
  w1 = log (ReadFrom p) w.
Proof.
  unfold read_text.
  destruct (files w !! p) as [[t|m|]|] eqn:E.
  - destruct (bool_decide_reflect (p ∈ read_denied w)) as [Hd|Hd].
    + split; [discriminate | intros (_ & H & _); contradiction].
    + split.
      * intros [= <- <-]. auto.
      * intros ([= ->] & _ & ->). reflexivity.
  - destruct (bool_decide (p ∈ read_denied w));
      (split; [discriminate | intros (H & _); discriminate]).
  - split; [discriminate | intros (H & _); discriminate].
  - destruct (contains _ p); [|destruct (under_a_file w p);
      [|destruct (bool_decide (p ∈ read_denied w))]];
      (split; [discriminate | intros (H & _); discriminate]).
Qed.

(** A read that raises leaves the world as it was. *)
Lemma read_text_raise (p : string) (w w1 : world) (e : exn) :
  read_text p w = (w1, Raise e) -> w1 = w.
Proof.
  unfold read_text.
  destruct (files w !! p) as [[t|m|]|];
    try destruct (bool_decide (p ∈ read_denied w));
    try destruct (contains _ p); try destruct (under_a_file w p);
    try destruct (bool_decide (p ∈ read_denied w)); congruence.
Qed.

(** Opening a path without entry raises. *)
Lemma read_text_missing (p : string) (w : world) :
  files w !! p = None ->
  exists e, read_text p w = (w, Raise e).
Proof.
  intros E. unfold read_text. rewrite E.
  destruct (contains _ p); [eauto|].
  destruct (under_a_file w p); [eauto|].
  destruct (bool_decide (p ∈ read_denied w)); eauto.
Qed.

(** It raises [FileNotFoundError] when nothing else stands in the way: no
    null character, no regular file on the way, no permission missing. *)
Lemma read_text_no_entry (p : string) (w : world) :
  files w !! p = None ->
  contains (String (ascii_of_nat 0) EmptyString) p = false ->
  under_a_file w p = false ->
  p ∉ read_denied w ->
  read_text p w
  = (w, Raise (Exn FileNotFoundError
                 ("[Errno 2] No such file or directory: " +:+ repr p))).
Proof.
  intros E Hn Hu Hd. unfold read_text. rewrite E, Hn, Hu.
  now rewrite (bool_decide_eq_false_2 _ Hd).
Qed.

(** A write succeeds exactly when the path is no directory and may be
    written; the file then holds the text, whatever it held before. *)
Lemma write_text_ok (p s : string) (w w2 : world) (u : unit) :
  write_text p s w = (w2, Ok u) <->
  files w !! p <> Some Directory /\ (p ∉ write_denied w) /\
  w2 = log (WrittenTo p s) (put p s w).
Proof.
  unfold write_text. destruct u.
  destruct (files w !! p) as [[t|m|]|] eqn:E;
    try destruct (bool_decide_reflect (p ∈ write_denied w)) as [Hd|Hd];
    split; try discriminate;
    try (intros (H & _); congruence);
    try (intros (_ & H & _); contradiction);
    try (intros [= <-]; repeat split; [discriminate | assumption]);
    try (intros (_ & _ & ->); reflexivity).
Qed.

(** A write that raises leaves the world as it was. *)
Lemma write_text_raise (p s : string) (w w2 : world) (e : exn) :
  write_text p s w = (w2, Raise e) -> w2 = w.
Proof.
  unfold write_text.
  destruct (files w !! p) as [[t|m|]|];
    try destruct (bool_decide (p ∈ write_denied w)); congruence.
Qed.

End WorldFacts.

(* ===================================================================== *)
(** ** What a conversion does *)
(* ===================================================================== *)

Section Conversion.

Import OS.

Variable highlight : highlight_fn.

Lemma files_converted (input out html : string) (w : world) :
  files (converted input out html w) = <[out := TextFile html]> (files w).
Proof. reflexivity. Qed.

Lemma trace_converted (input out html : string) (w : world) :
  trace (converted input out html w)
  = trace w ++ [ReadFrom input; WrittenTo out html].
Proof. cbn. now rewrite <- app_assoc. Qed.

(** [highlight.py]: [generate_html] returns a path exactly when the input
    is a readable text file, pygments returns markup, an output name can
    be derived and that path can be written. *)
Lemma CLI_generate_html_ok (input : string) (o : option string)
    (w w' : world) (out : string) :
  CLI.generate_html highlight input o w = (w', Ok out) <->
  exists code html,
    files w !! input = Some (TextFile code) /\
    (input ∉ read_denied w) /\
    CLI.render highlight code input = Ok html /\
    CLI.target_path input o = Ok out /\
    files w !! out <> Some Directory /\
    (out ∉ write_denied w) /\
    w' = converted input out html w.
Proof.
  unfold CLI.generate_html. split.
  - destruct (exists_ w input) eqn:Ex; [|discriminate]. cbn [negb].
    destruct (read_text input w) as [w1 [code|e]] eqn:Er; [|discriminate].
    apply read_text_ok in Er as (Hf & Hr & ->).
    destruct (CLI.render highlight code input) as [html|e] eqn:Eh;
      [|discriminate].
    destruct (CLI.target_path input o) as [t|e] eqn:Et; [|discriminate].
    destruct (write_text t html (log (ReadFrom input) w))
      as [w2 [u|e]] eqn:Ew; [|discriminate].
    apply write_text_ok in Ew as (Hd & Hw & ->).
    intros [= <- <-]. exists code, html. repeat split; auto.
  - intros (code & html & Hf & Hr & Eh & Et & Hd & Hw & ->).
    assert (Ex : exists_ w input = true) by (apply exists_true; eauto).
    rewrite Ex. cbn [negb].
    assert (Er : read_text input w = (log (ReadFrom input) w, Ok code))
      by (apply read_text_ok; auto).
    rewrite Er, Eh, Et.
    assert (Ew : write_text out html (log (ReadFrom input) w)
                 = (converted input out html w, Ok tt))
      by (apply write_text_ok; auto).
    now rewrite Ew.
Qed.

(** [highlight.py]: a path that names nothing is refused before the file
    system is touched. *)
Lemma CLI_generate_html_missing (input : string) (o : option string)
    (w : world) :
  exists_ w input = false ->
  CLI.generate_html highlight input o w
  = (w, Raise (Exn FileNotFoundError ("File '" +:+ input +:+ "' not found"))).
Proof. intros E. unfold CLI.generate_html. now rewrite E. Qed.

(** [gui_highlighter.py]: the same, with the output name always
    derived. *)
Lemma GUI_generate_html_ok (input : string) (w w' : world) (out : string) :
  GUI.generate_html highlight input w = (w', Ok out) <->
  exists code html,
    files w !! input = Some (TextFile code) /\
    (input ∉ read_denied w) /\
    GUI.render highlight code input = Ok html /\
    GUI.target_path input = Ok out /\
    files w !! out <> Some Directory /\
    (out ∉ write_denied w) /\
    w' = converted input out html w.
Proof.
  unfold GUI.generate_html. split.
  - destruct (read_text input w) as [w1 [code|e]] eqn:Er; [|discriminate].
    apply read_text_ok in Er as (Hf & Hr & ->).
    destruct (GUI.render highlight code input) as [html|e] eqn:Eh;
      [|discriminate].
    destruct (GUI.target_path input) as [t|e] eqn:Et; [|discriminate].
    destruct (write_text t html (log (ReadFrom input) w))
      as [w2 [u|e]] eqn:Ew; [|discriminate].
    apply write_text_ok in Ew as (Hd & Hw & ->).
    intros [= <- <-]. exists code, html. repeat split; auto.
  - intros (code & html & Hf & Hr & Eh & Et & Hd & Hw & ->).
    assert (Er : read_text input w = (log (ReadFrom input) w, Ok code))
      by (apply read_text_ok; auto).
    rewrite Er, Eh, Et.
    assert (Ew : write_text out html (log (ReadFrom input) w)
                 = (converted input out html w, Ok tt))
      by (apply write_text_ok; auto).
    now rewrite Ew.
Qed.

(** [gui_highlighter.py]: for a path without entry the call raises what
    [open] raises, and changes nothing. *)
Lemma GUI_generate_html_missing (input : string) (w : world) :
  exists_ w input = false ->
  exists e, read_text input w = (w, Raise e) /\
            GUI.generate_html highlight input w = (w, Raise e).
Proof.
  intros E. apply exists_false in E.
  destruct (read_text_missing input w E) as (e & Er).
  exists e. split; [exact Er|]. unfold GUI.generate_html. now rewrite Er.
Qed.

(** The document is the template around what pygments returned. *)
Lemma CLI_render_ok (code input html : string) :
  CLI.render highlight code input = Ok html <->
  exists frag,
    highlight code PythonLexer formatter_options = Ok frag /\
    html = CLI.html_template (basename input) CLI.MONOKAI_CSS frag.
Proof.
  unfold CLI.render. split.
  - destruct (highlight _ _ _) as [frag|e]; [|discriminate].
    intros [= <-]. eauto.
  - intros (frag & Hf & ->). unfold formatter_options in Hf.
    now rewrite Hf.
Qed.

Lemma GUI_render_ok (code input html : string) :
  GUI.render highlight code input = Ok html <->
  exists frag,
    highlight code PythonLexer formatter_options = Ok frag /\
    html = GUI.html_template (basename input) GUI.MONOKAI_CSS frag.
Proof.
  unfold GUI.render. split.
  - destruct (highlight _ _ _) as [frag|e]; [|discriminate].
    intros [= <-]. eauto.
  - intros (frag & Hf & ->). unfold formatter_options in Hf.
    now rewrite Hf.
Qed.

(** Both front ends at once. *)
Lemma render_of_ok (c : call) (code input html : string) :
  render_of highlight c code input = Ok html <->
  exists frag,
    highlight code PythonLexer formatter_options = Ok frag /\
    html = html_template_of c (basename input) (stylesheet_of c) frag.
Proof. destruct c; [apply CLI_render_ok | apply GUI_render_ok]. Qed.

Lemma generate_html_of_ok (c : call) (input : string) (w w' : world)
    (out : string) :
  generate_html_of highlight c input w = (w', Ok out) <->
  exists code html,
    files w !! input = Some (TextFile code) /\
    (input ∉ read_denied w) /\
    render_of highlight c code input = Ok html /\
    target_path_of c input = Ok out /\
    files w !! out <> Some Directory /\
    (out ∉ write_denied w) /\
    w' = converted input out html w.
Proof.
  destruct c; [apply CLI_generate_html_ok | apply GUI_generate_html_ok].
Qed.

(** A call that raises has written nothing: the files are as they were. *)
Lemma generate_html_of_raise (c : call) (input : string) (w w' : world)
    (e : exn) :
  generate_html_of highlight c input w = (w', Raise e) ->
  files w' = files w.
Proof.
  assert (Hstep : forall code w1,
            match render_of highlight c code input with
            | Raise e0 => (w1, Raise e0)
            | Ok html =>
                match target_path_of c input with
                | Raise e0 => (w1, Raise e0)
                | Ok out =>
                    match write_text out html w1 with
                    | (w2, Raise e0) => (w2, Raise e0)
                    | (w2, Ok _) => (w2, Ok out)
                    end
                end
            end = (w', Raise e) -> w' = w1).
  { intros code w1.
    destruct (render_of highlight c code input) as [html|e0];
      [|congruence].
    destruct (target_path_of c input) as [out|e0]; [|congruence].
    destruct (write_text out html w1) as [w2 [u|e0]] eqn:Ew; [discriminate|].
    apply write_text_raise in Ew. congruence. }
  assert (Hread : match read_text input w with
                  | (w1, Raise e0) => (w1, Raise e0)
                  | (w1, Ok code) =>
                      match render_of highlight c code input with
                      | Raise e0 => (w1, Raise e0)
                      | Ok html =>
                          match target_path_of c input with
                          | Raise e0 => (w1, Raise e0)
                          | Ok out =>
                              match write_text out html w1 with
                              | (w2, Raise e0) => (w2, Raise e0)
                              | (w2, Ok _) => (w2, Ok out)
                              end
                          end
                      end
                  end = (w', Raise e) -> files w' = files w).
  { destruct (read_text input w) as [w1 [code|e0]] eqn:Er.
    - apply read_text_ok in Er as (_ & _ & ->).
      intros H. apply Hstep in H. now subst w'.
    - apply read_text_raise in Er. congruence. }
  destruct c as [o|]; cbn [generate_html_of render_of target_path_of] in *.
  - unfold CLI.generate_html.
    destruct (exists_ w input); cbn [negb]; [exact Hread | congruence].
  - exact Hread.
Qed.

End Conversion.

(** A failure inside pygments reaches the general handler of the script:
    the input was read, nothing was written, the status is 1. *)
Example main_library_failure :
  CLI.main failing_highlight ["highlight.py"; "foo/bar.py"] example_world
  = {| CLI.stdout := ["[-] An error occurred: lexer failure"];
       CLI.exit_code := 1;
       CLI.final := OS.log (OS.ReadFrom "foo/bar.py") example_world |}.
Proof. by_evaluation. Qed.

(* ===================================================================== *)
(** ** Determinism of the conversion *)
(* ===================================================================== *)

Section Determinism.

Variable highlight : highlight_fn.

(** The document depends on the input path through its basename only, and
    not on the output argument. *)
Lemma render_of_basename (c1 c2 : call) (code in1 in2 : string) :
  same_module c1 c2 ->
  basename in1 = basename in2 ->
  render_of highlight c1 code in1 = render_of highlight c2 code in2.
Proof.
  intros Hm Hb.
  destruct c1, c2; try contradiction; cbn [render_of];
    unfold CLI.render, GUI.render; now rewrite Hb.
Qed.

(** What a successful call wrote, in terms of the text it read. *)
Lemma generate_html_of_document (c : call) (input code : string)
    (w w' : OS.world) (out : string) :
  OS.files w !! input = Some (OS.TextFile code) ->
  generate_html_of highlight c input w = (w', Ok out) ->
  exists html,
    render_of highlight c code input = Ok html /\
    w' = converted input out html w /\
    OS.files w' !! out = Some (OS.TextFile html).
Proof.
  intros Hf Hg.
  apply generate_html_of_ok in Hg
    as (code' & html & Hf' & _ & Hr & _ & _ & _ & ->).
  rewrite Hf in Hf'. injection Hf' as <-.
  exists html. repeat split; [assumption|].
  rewrite files_converted. apply lookup_insert_eq.
Qed.

End Determinism.

(** C1.  Two conversions by the same front end of the same source text
    under the same display name write the same document, byte for byte,
    whatever else differs between the two runs: the directory of the input,
    the output path, the other files, the permissions, the transfers done
    before.  Pygments is taken as a function of its arguments. *)
Theorem conversion_deterministic (highlight : highlight_fn) (c1 c2 : call)
    (code in1 in2 : string) (w1 w2 w1' w2' : OS.world) (out1 out2 : string) :
  same_module c1 c2 ->
  basename in1 = basename in2 ->
  OS.files w1 !! in1 = Some (OS.TextFile code) ->
  OS.files w2 !! in2 = Some (OS.TextFile code) ->
  generate_html_of highlight c1 in1 w1 = (w1', Ok out1) ->
  generate_html_of highlight c2 in2 w2 = (w2', Ok out2) ->
  render_of highlight c1 code in1 = render_of highlight c2 code in2 /\
  exists html,
    render_of highlight c1 code in1 = Ok html /\
    OS.files w1' !! out1 = Some (OS.TextFile html) /\
    OS.files w2' !! out2 = Some (OS.TextFile html).
Proof.
  intros Hm Hb Hf1 Hf2 Hg1 Hg2.
  pose proof (render_of_basename highlight c1 c2 code in1 in2 Hm Hb) as Hr.
  split; [exact Hr|].
  destruct (generate_html_of_document highlight c1 in1 code w1 w1' out1 Hf1 Hg1)
    as (html1 & Hr1 & _ & Hw1).
  destruct (generate_html_of_document highlight c2 in2 code w2 w2' out2 Hf2 Hg2)
    as (html2 & Hr2 & _ & Hw2).
  exists html1. repeat split; try assumption.
  rewrite Hr, Hr2 in Hr1. injection Hr1 as <-. exact Hw2.
Qed.

Lemma conversion_deterministic_witness :
  let w1' := fst (generate_html_of plain_highlight (cli_call None)
                    "foo/bar.py" example_world) in
  let w2' := fst (generate_html_of plain_highlight (cli_call (Some "out.html"))
                    "tmp/bar.py" example_world) in
  same_module (cli_call None) (cli_call (Some "out.html")) /\
  basename "foo/bar.py" = basename "tmp/bar.py" /\
  OS.files example_world !! "foo/bar.py" = Some (OS.TextFile "print(1)") /\
  OS.files example_world !! "tmp/bar.py" = Some (OS.TextFile "print(1)") /\
  generate_html_of plain_highlight (cli_call None) "foo/bar.py" example_world
    = (w1', Ok "foo/bar.html") /\
  generate_html_of plain_highlight (cli_call (Some "out.html")) "tmp/bar.py"
      example_world
    = (w2', Ok "out.html") /\
  OS.files w1' !! "foo/bar.html" = OS.files w2' !! "out.html".
Proof.
  assert (H1 : same_module (cli_call None) (cli_call (Some "out.html")))
    by exact I.
  assert (H2 : basename "foo/bar.py" = basename "tmp/bar.py")
    by by_evaluation.
  assert (H3 : OS.files example_world !! "foo/bar.py"
               = Some (OS.TextFile "print(1)")) by by_evaluation.
  assert (H4 : OS.files example_world !! "tmp/bar.py"
               = Some (OS.TextFile "print(1)")) by by_evaluation.
  assert (H5 : generate_html_of plain_highlight (cli_call None) "foo/bar.py"
                 example_world
               = (fst (generate_html_of plain_highlight (cli_call None)
                         "foo/bar.py" example_world), Ok "foo/bar.html"))
    by by_evaluation.
  assert (H6 : generate_html_of plain_highlight (cli_call (Some "out.html"))
                 "tmp/bar.py" example_world
               = (fst (generate_html_of plain_highlight
                         (cli_call (Some "out.html")) "tmp/bar.py"
                         example_world), Ok "out.html"))
    by by_evaluation.
  cbv zeta.
  split; [exact H1|]. split; [exact H2|]. split; [exact H3|].
  split; [exact H4|]. split; [exact H5|]. split; [exact H6|].
  destruct (conversion_deterministic plain_highlight _ _ _ _ _ _ _ _ _ _ _
              H1 H2 H3 H4 H5 H6) as (_ & html & _ & Ha & Hb).
  rewrite Ha, Hb. reflexivity.
Defined.

(* ===================================================================== *)
(** ** The shape of the document *)
(* ===================================================================== *)

Section DocumentShape.

(** The two modules carry the same template. *)
Lemma html_template_agree (name css frag : string) :
  GUI.html_template name css frag = CLI.html_template name css frag.
Proof. reflexivity. Qed.

Lemma html_template_of_cli (c : call) (name css frag : string) :
  html_template_of c name css frag = CLI.html_template name css frag.
Proof. destruct c; reflexivity. Qed.

Lemma prefix_append_r (sub s b : string) :
  String.prefix sub s = true -> String.prefix sub (s +:+ b) = true.
Proof.
  revert s; induction sub as [|x sub IH]; intros s H;
    [now destruct (s +:+ b)|].
  destruct s as [|y s]; [discriminate|].
  rewrite append_cons. simpl in *.
  destruct (ascii_dec x y); [auto | discriminate].
Qed.

Lemma contains_append_r (sub s b : string) :
  contains sub s = true -> contains sub (s +:+ b) = true.
Proof.
  induction s as [|y s IH]; cbn [contains].
  - rewrite orb_false_r. intros H. apply contains_prefix.
    now apply (prefix_append_r sub EmptyString b).
  - intros H. apply orb_true_iff in H as [H|H].
    + apply contains_prefix. now apply prefix_append_r.
    + rewrite append_cons. cbn [contains]. rewrite (IH H).
      apply orb_true_r.
Qed.

Lemma contains_append_l (sub a s : string) :
  contains sub s = true -> contains sub (a +:+ s) = true.
Proof.
  intros H. induction a as [|x a IH]; [exact H|].
  rewrite append_cons. cbn [contains]. rewrite IH. apply orb_true_r.
Qed.

(** A document is never empty: it starts with the doctype. *)
Lemma html_template_nonempty (c : call) (name css frag : string) :
  html_template_of c name css frag <> EmptyString.
Proof.
  rewrite html_template_of_cli. unfold CLI.html_template.
  intros H. apply append_eq_nil in H as [H _]. discriminate.
Qed.

(** The markup of pygments stands inside the code region. *)
Lemma html_template_code_region (c : call) (name css frag : string) :
  contains (code_region frag) (html_template_of c name css frag) = true.
Proof.
  rewrite html_template_of_cli.
  assert (E : exists pre post,
             CLI.html_template name css frag
             = pre +:+ code_region frag +:+ post).
  { exists ("<!DOCTYPE html>
<html lang=" +:+ dq +:+ "en" +:+ dq +:+ ">
<head>
    <meta charset=" +:+ dq +:+ "UTF-8" +:+ dq +:+ ">
    <meta name=" +:+ dq +:+ "viewport" +:+ dq +:+ " content=" +:+ dq +:+ "width=device-width, initial-scale=1.0" +:+ dq +:+ ">
    <title>" +:+ name +:+ " - Python Code</title>
    <link href=" +:+ dq +:+ "https://fonts.googleapis.com/css2?family=Fira+Code:wght@400;500&display=swap" +:+ dq +:+ " rel=" +:+ dq +:+ "stylesheet" +:+ dq +:+ ">
    <style>
        " +:+ css +:+ "
    </style>
</head>
<body>
    <div class=" +:+ dq +:+ "code-container" +:+ dq +:+ ">
        <div class=" +:+ dq +:+ "file-header" +:+ dq +:+ ">" +:+ name +:+ "</div>
        "), "
    </div>
</body>
</html>".
    unfold CLI.html_template, code_region.
    rewrite !append_assoc. reflexivity. }
  destruct E as (pre & post & ->). apply contains_append.
Qed.

(** The display name stands in the title as it is. *)
Lemma html_template_title (c : call) (name css frag : string) :
  contains (title_element name) (html_template_of c name css frag) = true.
Proof.
  rewrite html_template_of_cli.
  assert (E : exists pre post,
             CLI.html_template name css frag
             = pre +:+ title_element name +:+ post).
  { exists ("<!DOCTYPE html>
<html lang=" +:+ dq +:+ "en" +:+ dq +:+ ">
<head>
    <meta charset=" +:+ dq +:+ "UTF-8" +:+ dq +:+ ">
    <meta name=" +:+ dq +:+ "viewport" +:+ dq +:+ " content=" +:+ dq +:+ "width=device-width, initial-scale=1.0" +:+ dq +:+ ">
    "), ("
    <link href=" +:+ dq +:+ "https://fonts.googleapis.com/css2?family=Fira+Code:wght@400;500&display=swap" +:+ dq +:+ " rel=" +:+ dq +:+ "stylesheet" +:+ dq +:+ ">
    <style>
        " +:+ css +:+ "
    </style>
</head>
<body>
    <div class=" +:+ dq +:+ "code-container" +:+ dq +:+ ">
        <div class=" +:+ dq +:+ "file-header" +:+ dq +:+ ">" +:+ name +:+ "</div>
        <div class=" +:+ dq +:+ "code-wrapper" +:+ dq +:+ ">
            " +:+ frag +:+ "
        </div>
    </div>
</body>
</html>").
    unfold CLI.html_template, title_element.
    rewrite !append_assoc. reflexivity. }
  destruct E as (pre & post & ->). apply contains_append.
Qed.

(** The display name stands in the file header as it is. *)
Lemma html_template_header (c : call) (name css frag : string) :
  contains (header_element name) (html_template_of c name css frag) = true.
Proof.
  rewrite html_template_of_cli.
  assert (E : exists pre post,
             CLI.html_template name css frag
             = pre +:+ header_element name +:+ post).
  { exists ("<!DOCTYPE html>
<html lang=" +:+ dq +:+ "en" +:+ dq +:+ ">
<head>
    <meta charset=" +:+ dq +:+ "UTF-8" +:+ dq +:+ ">
    <meta name=" +:+ dq +:+ "viewport" +:+ dq +:+ " content=" +:+ dq +:+ "width=device-width, initial-scale=1.0" +:+ dq +:+ ">
    <title>" +:+ name +:+ " - Python Code</title>
    <link href=" +:+ dq +:+ "https://fonts.googleapis.com/css2?family=Fira+Code:wght@400;500&display=swap" +:+ dq +:+ " rel=" +:+ dq +:+ "stylesheet" +:+ dq +:+ ">
    <style>
        " +:+ css +:+ "
    </style>
</head>
<body>
    <div class=" +:+ dq +:+ "code-container" +:+ dq +:+ ">
        "), ("
        <div class=" +:+ dq +:+ "code-wrapper" +:+ dq +:+ ">
            " +:+ frag +:+ "
        </div>
    </div>
</body>
</html>").
    unfold CLI.html_template, header_element.
    rewrite !append_assoc. reflexivity. }
  destruct E as (pre & post & ->). apply contains_append.
Qed.

(** What the style sheet holds, the document holds. *)
Lemma html_template_stylesheet (c : call) (sub name css frag : string) :
  contains sub css = true ->
  contains sub (html_template_of c name css frag) = true.
Proof.
  intros H. rewrite html_template_of_cli. unfold CLI.html_template.
  repeat match goal with
         | |- contains _ (?a +:+ _) = true =>
             tryif constr_eq a css then fail else apply contains_append_l
         end.
  now apply contains_append_r.
Qed.

Lemma stylesheet_error_rule (c : call) :
  contains error_rule (stylesheet_of c) = true.
Proof. destruct c; by_evaluation. Qed.

End DocumentShape.

(* ===================================================================== *)
(** ** The output path *)
(* ===================================================================== *)

Section OutputPath.

(** The two modules derive the same name. *)
Lemma target_path_agree (input : string) :
  GUI.target_path input = CLI.target_path input None.
Proof. reflexivity. Qed.

(** The derived name, for a path that has a final component: the normal
    form of the path with its extension cut off and [.html] added. *)
Lemma derived_path (input : string) :
  PurePosixPath.name (PurePosixPath.Path input) <> EmptyString ->
  endswith (normal_form input) (extension input) = true /\
  CLI.target_path input None
  = Ok (replace_suffix (normal_form input) (extension input) ".html") /\
  GUI.target_path input
  = Ok (replace_suffix (normal_form input) (extension input) ".html").
Proof.
  intros Hn.
  destruct (with_suffix_html _ Hn) as (q' & stem & Hw & Hs & Hs').
  rewrite target_path_agree.
  unfold CLI.target_path, replace_suffix, normal_form, extension.
  rewrite Hw, Hs', Hs, slice_to_append_cut.
  split; [apply endswith_append | split; reflexivity].
Qed.

End OutputPath.

(** C3, as the code has it.  An explicit output path is used exactly as it
    is given.  Without one, for an input path with a final component, the
    produced path is the pathlib normal form of the input path (no dot
    components, no repeated or trailing slashes) with its extension replaced
    by [.html]; an input path already in normal form is therefore the input
    path itself with its extension replaced, as [foo/bar.py] giving
    [foo/bar.html].  A call that succeeds returns that path and has written
    the file there. *)
Theorem output_path_derivation (highlight : highlight_fn) (input : string) :
  (forall X, CLI.target_path input (Some X) = Ok X) /\
  (PurePosixPath.name (PurePosixPath.Path input) <> EmptyString ->
   endswith (normal_form input) (extension input) = true /\
   CLI.target_path input None
   = Ok (replace_suffix (normal_form input) (extension input) ".html") /\
   GUI.target_path input
   = Ok (replace_suffix (normal_form input) (extension input) ".html") /\
   (normal_form input = input ->
    CLI.target_path input None
    = Ok (replace_suffix input (extension input) ".html"))) /\
  (forall c w w' out,
     generate_html_of highlight c input w = (w', Ok out) ->
     target_path_of c input = Ok out /\
     exists html, OS.files w' !! out = Some (OS.TextFile html)) /\
  CLI.target_path "foo/bar.py" None = Ok "foo/bar.html".
Proof.
  split; [reflexivity|]. split; [|split; [|by_evaluation]].
  - intros Hn. destruct (derived_path input Hn) as (He & Hc & Hg).
    repeat split; try assumption.
    intros Hnf. rewrite Hnf in Hc. exact Hc.
  - intros c w w' out Hg.
    apply generate_html_of_ok in Hg
      as (code & html & _ & _ & _ & Ht & _ & _ & ->).
    split; [exact Ht|]. exists html.
    rewrite files_converted. apply lookup_insert_eq.
Qed.

Lemma output_path_derivation_witness :
  PurePosixPath.name (PurePosixPath.Path "src/pkg/main.py") <> EmptyString /\
  normal_form "src/pkg/main.py" = "src/pkg/main.py" /\
  extension "src/pkg/main.py" = ".py" /\
  CLI.target_path "src/pkg/main.py" None
  = Ok (replace_suffix "src/pkg/main.py" (extension "src/pkg/main.py") ".html") /\
  replace_suffix "src/pkg/main.py" ".py" ".html" = "src/pkg/main.html".
Proof.
  assert (Hn : PurePosixPath.name (PurePosixPath.Path "src/pkg/main.py")
               <> EmptyString) by (vm_compute; discriminate).
  assert (Hf : normal_form "src/pkg/main.py" = "src/pkg/main.py")
    by by_evaluation.
  split; [exact Hn|]. split; [exact Hf|]. split; [by_evaluation|].
  split; [|by_evaluation].
  destruct (output_path_derivation plain_highlight "src/pkg/main.py")
    as (_ & H & _).
  destruct (H Hn) as (_ & _ & _ & H'). exact (H' Hf).
Defined.

(** C3, as the claim has it, fails where pathlib normalises: for the input
    path [./bar.py] the produced path is [bar.html], while the input path
    with its extension replaced is [./bar.html]. *)
Lemma output_path_not_input_with_extension_replaced :
  generate_html_of plain_highlight (cli_call None) "./bar.py" example_world
  = (converted "./bar.py" "bar.html"
       (CLI.html_template "bar.py" CLI.MONOKAI_CSS
          (("<div class=" +:+ dq +:+ "highlight" +:+ dq +:+ "><pre>")
           +:+ "print(1)" +:+ "</pre></div>"))
       example_world,
     Ok "bar.html") /\
  extension "./bar.py" = ".py" /\
  replace_suffix "./bar.py" (extension "./bar.py") ".html" = "./bar.html" /\
  String.eqb "bar.html" "./bar.html" = false.
Proof. repeat split; by_evaluation. Qed.

(* ===================================================================== *)
(** ** The display name in the document *)
(* ===================================================================== *)

(** C4, as the code has it.  The display name, [os.path.basename] of the
    input path, is substituted into the page title and into the file header
    exactly as it is: neither front end escapes it. *)
Theorem display_name_verbatim (highlight : highlight_fn) (c : call)
    (code input_file frag : string) :
  highlight code PythonLexer formatter_options = Ok frag ->
  exists html,
    render_of highlight c code input_file = Ok html /\
    contains (title_element (basename input_file)) html = true /\
    contains (header_element (basename input_file)) html = true.
Proof.
  intros Hh.
  exists (html_template_of c (basename input_file) (stylesheet_of c) frag).
  split; [apply render_of_ok; eauto|].
  split; [apply html_template_title | apply html_template_header].
Qed.

Lemma display_name_verbatim_witness :
  plain_highlight "x = 1" PythonLexer formatter_options
  = Ok (("<div class=" +:+ dq +:+ "highlight" +:+ dq +:+ "><pre>")
        +:+ "x = 1" +:+ "</pre></div>") /\
  basename "a<b>&.py" = "a<b>&.py" /\
  exists html,
    render_of plain_highlight gui_call "x = 1" "a<b>&.py" = Ok html /\
    contains (title_element (basename "a<b>&.py")) html = true /\
    contains (header_element (basename "a<b>&.py")) html = true.
Proof.
  assert (H : plain_highlight "x = 1" PythonLexer formatter_options
              = Ok (("<div class=" +:+ dq +:+ "highlight" +:+ dq +:+ "><pre>")
                    +:+ "x = 1" +:+ "</pre></div>")) by reflexivity.
  split; [exact H|]. split; [by_evaluation|].
  exact (display_name_verbatim plain_highlight gui_call "x = 1" "a<b>&.py" _ H).
Defined.

(** C4, as the claim has it, fails for a name with characters HTML
    reserves: for the input path [a<b>&.py] the title and the header of
    both front ends hold the name as it is, and its escaped form
    [a&lt;b&gt;&amp;.py] stands nowhere in the document. *)
Lemma display_name_not_escaped :
  html_escape "a<b>&.py" = "a&lt;b&gt;&amp;.py" /\
  (match render_of plain_highlight (cli_call None) "x = 1" "a<b>&.py" with
   | Ok html =>
       contains (title_element "a<b>&.py") html
       && contains (header_element "a<b>&.py") html
       && negb (contains (html_escape "a<b>&.py") html)
   | Raise _ => false
   end = true) /\
  (match render_of plain_highlight gui_call "x = 1" "a<b>&.py" with
   | Ok html =>
       contains (title_element "a<b>&.py") html
       && contains (header_element "a<b>&.py") html
       && negb (contains (html_escape "a<b>&.py") html)
   | Raise _ => false
   end = true).
Proof. repeat split; by_evaluation. Qed.

(* ===================================================================== *)
(** ** The two style sheets *)
(* ===================================================================== *)

(** C5, as the code has it.  The two style sheets hold the same rules in
    the same order: the one of the window is the one of the script with the
    comment after each rule removed.  The two templates are the same, so for
    the same text and name the window builds the document of the script
    with those comments removed from its style sheet. *)
Theorem stylesheets_agree_up_to_comments :
  strip_rule_comments CLI.MONOKAI_CSS = GUI.MONOKAI_CSS /\
  strip_rule_comments GUI.MONOKAI_CSS = GUI.MONOKAI_CSS /\
  (forall name css frag,
     GUI.html_template name css frag = CLI.html_template name css frag) /\
  (forall highlight code input_file,
     GUI.render highlight code input_file
     = match highlight code PythonLexer formatter_options with
       | Ok frag =>
           Ok (CLI.html_template (basename input_file)
                 (strip_rule_comments CLI.MONOKAI_CSS) frag)
       | Raise e => Raise e
       end).
Proof.
  assert (E : strip_rule_comments CLI.MONOKAI_CSS = GUI.MONOKAI_CSS)
    by by_evaluation.
  split; [exact E|]. split; [by_evaluation|]. split; [reflexivity|].
  intros highlight code input_file. rewrite E. reflexivity.
Qed.

(** C5, as the claim has it, fails: the two strings differ, in length
    already, and so do the documents built from the same text and name. *)
Lemma stylesheets_differ :
  String.eqb CLI.MONOKAI_CSS GUI.MONOKAI_CSS = false /\
  String.length CLI.MONOKAI_CSS = 4450%nat /\
  String.length GUI.MONOKAI_CSS = 3163%nat /\
  contains "/* Comment.Single */" CLI.MONOKAI_CSS = true /\
  contains "/* Comment.Single */" GUI.MONOKAI_CSS = false /\
  match CLI.render plain_highlight "x = 1" "a.py",
        GUI.render plain_highlight "x = 1" "a.py" with
  | Ok cli_html, Ok gui_html => String.eqb cli_html gui_html
  | _, _ => true
  end = false.
Proof. repeat split; by_evaluation. Qed.

(* ===================================================================== *)
(** ** The command line front end *)
(* ===================================================================== *)

Section CommandLine.

Variable highlight : highlight_fn.

(** Fewer than two words on the command line: usage, status 1. *)
Lemma main_usage (argv : list string) (w : OS.world) :
  (List.length argv < 2)%nat ->
  CLI.main highlight argv w
  = {| CLI.stdout := ["Usage: python highlight.py <path_to_file.py>";
                      "Example: python highlight.py main.py"];
       CLI.exit_code := 1; CLI.final := w |}.
Proof.
  intros H. unfold CLI.main.
  destruct (Nat.ltb_spec (List.length argv) 2) as [_|H']; [reflexivity | lia].
Qed.

(** With a file argument, [main] reports what [generate_html] did. *)
Lemma main_reports (prog input : string) (rest : list string) (w : OS.world) :
  CLI.main highlight (prog :: input :: rest) w
  = match CLI.generate_html highlight input None w with
    | (w', Ok output_file) =>
        {| CLI.stdout :=
             ["[+] HTML file successfully created: " +:+ output_file;
              "[+] Open it in a browser to view"];
           CLI.exit_code := 0; CLI.final := w' |}
    | (w', Raise e) =>
        if is_FileNotFoundError e then
          {| CLI.stdout := ["[-] Error: " +:+ exn_msg e];
             CLI.exit_code := 1; CLI.final := w' |}
        else
          {| CLI.stdout := ["[-] An error occurred: " +:+ exn_msg e];
             CLI.exit_code := 1; CLI.final := w' |}
    end.
Proof. reflexivity. Qed.


End CommandLine.



(* ===================================================================== *)
(** ** The window *)
(* ===================================================================== *)

Section WindowFacts.

Variable highlight : highlight_fn.
Variable platform : string.

(** A failure other than not-found gets the general report of the
    script. *)
Lemma main_other_failure (prog input : string) (rest : list string)
    (w w' : OS.world) (e : exn) :
  CLI.generate_html highlight input None w = (w', Raise e) ->
  is_FileNotFoundError e = false ->
  CLI.main highlight (prog :: input :: rest) w
  = {| CLI.stdout := ["[-] An error occurred: " +:+ exn_msg e];
       CLI.exit_code := 1; CLI.final := w' |}.
Proof. intros Hg He. rewrite main_reports, Hg, He. reflexivity. Qed.

(** The window after a conversion that raised: the report of the handler
    that catches the exception. *)
Lemma process_file_raise (file_path : string) (reply : GUI.StandardButton)
    (g : GUI.window) (w w' : OS.world) (e : exn) :
  GUI.generate_html highlight file_path w = (w', Raise e) ->
  GUI.process_file highlight platform file_path reply g w
  = (GUI.report_failure e
       (GUI.set_status ("Processing file: " +:+ basename file_path) g), w').
Proof. intros Hg. unfold GUI.process_file. now rewrite Hg. Qed.

(** A failure other than not-found gets the general box of the window. *)
Lemma process_file_other_failure (file_path : string)
    (reply : GUI.StandardButton) (g : GUI.window) (w w' : OS.world)
    (e : exn) :
  GUI.generate_html highlight file_path w = (w', Raise e) ->
  is_FileNotFoundError e = false ->
  GUI.process_file highlight platform file_path reply g w
  = (GUI.set_status "Error during processing"
       (GUI.show (GUI.critical "Error" ("An error occurred:
" +:+ exn_msg e))
          (GUI.set_status ("Processing file: " +:+ basename file_path) g)),
     w').
Proof.
  intros Hg He. rewrite (process_file_raise _ _ _ _ _ _ Hg).
  unfold GUI.report_failure. now rewrite He.
Qed.

(** The window on a path that has no entry and nothing else in the way:
    the not-found box, the not-found status, the world untouched. *)
Lemma process_file_no_entry (file_path : string) (reply : GUI.StandardButton)
    (g : GUI.window) (w : OS.world) :
  OS.files w !! file_path = None ->
  contains (String (ascii_of_nat 0) EmptyString) file_path = false ->
  OS.under_a_file w file_path = false ->
  file_path ∉ OS.read_denied w ->
  GUI.process_file highlight platform file_path reply g w
  = (GUI.set_status "Error: file not found"
       (GUI.show (GUI.critical "Error" "File not found")
          (GUI.set_status ("Processing file: " +:+ basename file_path) g)),
     w).
Proof.
  intros E Hn Hu Hd.
  pose proof (read_text_no_entry file_path w E Hn Hu Hd) as Hr.
  rewrite (process_file_raise file_path reply g w w
             (Exn FileNotFoundError
                ("[Errno 2] No such file or directory: " +:+ repr file_path)));
    [reflexivity|].
  unfold GUI.generate_html. now rewrite Hr.
Qed.

End WindowFacts.

(** C7, where the code departs from it.  The path [tmp/bar.py/x.py] does
    not exist: [tmp/bar.py] is a regular file, and [os.path.exists] is
    false.  The script raises [FileNotFoundError] at its check, prints its
    not-found line and exits with status 1.  The window, which has no such
    check, gets [NotADirectoryError] from [open]; its handler for
    [FileNotFoundError] does not catch it, and the drop is answered with
    the general error box and status.  In both nothing is read or
    written. *)
Theorem window_reports_missing_input_as_general_error :
  OS.files example_world !! "tmp/bar.py" = Some (OS.TextFile "print(1)") /\
  OS.exists_ example_world "tmp/bar.py/x.py" = false /\
  endswith "tmp/bar.py/x.py" ".py" = true /\
  CLI.main plain_highlight ["highlight.py"; "tmp/bar.py/x.py"] example_world
  = {| CLI.stdout := ["[-] Error: File 'tmp/bar.py/x.py' not found"];
       CLI.exit_code := 1; CLI.final := example_world |} /\
  GUI.generate_html plain_highlight "tmp/bar.py/x.py" example_world
  = (example_world,
     Raise (Exn NotADirectoryError
              "[Errno 20] Not a directory: 'tmp/bar.py/x.py'")) /\
  GUI.dropEvent plain_highlight "linux" ["tmp/bar.py/x.py"] GUI.Yes
    GUI.initial example_world
  = (GUI.set_status "Error during processing"
       (GUI.show
          (GUI.critical "Error" "An error occurred:
[Errno 20] Not a directory: 'tmp/bar.py/x.py'")
          (GUI.set_status "Processing file: x.py" GUI.initial)),
     example_world).
Proof. repeat split; by_evaluation. Qed.

(** C8.  A drop whose first path does not end in [.py] runs no conversion:
    the world stays as it was, so nothing is written; the warning box is
    shown, nothing is launched, the status line is unchanged and the drop
    zone is back to its idle look. *)
Theorem wrong_extension_rejected (highlight : highlight_fn)
    (platform file_path : string) (rest : list string)
    (reply : GUI.StandardButton) (g : GUI.window) (w : OS.world) :
  endswith file_path ".py" = false ->
  let r := GUI.dropEvent highlight platform (file_path :: rest) reply g w in
  snd r = w /\
  GUI.dialogs (fst r)
  = GUI.dialogs g
    ++ [GUI.warning "Error" "Please select a file with .py extension"] /\
  GUI.launched (fst r) = GUI.launched g /\
  GUI.status_label (fst r) = GUI.status_label g /\
  GUI.idle (fst r).
Proof.
  intros E. unfold GUI.dropEvent. rewrite E. cbn.
  repeat split.
Qed.

Lemma wrong_extension_rejected_witness :
  endswith "notes.txt" ".py" = false /\
  let r := GUI.dropEvent plain_highlight "linux" ["notes.txt"; "tmp/bar.py"]
             GUI.Yes (GUI.set_drag_over_style GUI.initial) example_world in
  snd r = example_world /\
  GUI.dialogs (fst r)
  = GUI.dialogs (GUI.set_drag_over_style GUI.initial)
    ++ [GUI.warning "Error" "Please select a file with .py extension"] /\
  GUI.launched (fst r) = GUI.launched (GUI.set_drag_over_style GUI.initial) /\
  GUI.status_label (fst r)
  = GUI.status_label (GUI.set_drag_over_style GUI.initial) /\
  GUI.idle (fst r).
Proof.
  assert (H : endswith "notes.txt" ".py" = false) by by_evaluation.
  split; [exact H|].
  exact (wrong_extension_rejected plain_highlight "linux" "notes.txt"
           ["tmp/bar.py"] GUI.Yes (GUI.set_drag_over_style GUI.initial)
           example_world H).
Defined.

(* ===================================================================== *)
(** ** What [generate_html] returns and what it touches *)
(* ===================================================================== *)

(** C9, as the code has it.  The HTML construction inside [generate_html]
    is a function of the source text and of the basename of the input path.
    [generate_html] itself is more than that function: a call that succeeds
    has read the input file, has written the document to the output path,
    has done no other transfer and changed no other file, and returns the
    output path, not the document. *)
Theorem generate_html_reads_writes_returns_path (highlight : highlight_fn)
    (c : call) (input : string) (w w' : OS.world) (out : string) :
  generate_html_of highlight c input w = (w', Ok out) ->
  exists code html,
    OS.files w !! input = Some (OS.TextFile code) /\
    render_of highlight c code input = Ok html /\
    (forall other,
       basename other = basename input ->
       render_of highlight c code other = Ok html) /\
    target_path_of c input = Ok out /\
    OS.trace w' = OS.trace w ++ [OS.ReadFrom input; OS.WrittenTo out html] /\
    OS.files w' = <[out := OS.TextFile html]> (OS.files w).
Proof.
  intros Hg.
  apply generate_html_of_ok in Hg
    as (code & html & Hf & _ & Hr & Ht & _ & _ & ->).
  exists code, html. repeat split; try assumption.
  - intros other Hb. rewrite <- Hr.
    apply render_of_basename; [destruct c; exact I | exact Hb].
  - apply trace_converted.
Qed.

Lemma generate_html_reads_writes_returns_path_witness :
  let html := GUI.html_template "bar.py" GUI.MONOKAI_CSS
                (("<div class=" +:+ dq +:+ "highlight" +:+ dq +:+ "><pre>")
                 +:+ "print(1)" +:+ "</pre></div>") in
  let w' := converted "tmp/bar.py" "tmp/bar.html" html example_world in
  generate_html_of plain_highlight gui_call "tmp/bar.py" example_world
  = (w', Ok "tmp/bar.html") /\
  exists code html',
    OS.files example_world !! "tmp/bar.py" = Some (OS.TextFile code) /\
    render_of plain_highlight gui_call code "tmp/bar.py" = Ok html' /\
    (forall other,
       basename other = basename "tmp/bar.py" ->
       render_of plain_highlight gui_call code other = Ok html') /\
    target_path_of gui_call "tmp/bar.py" = Ok "tmp/bar.html" /\
    OS.trace w'
    = OS.trace example_world
      ++ [OS.ReadFrom "tmp/bar.py"; OS.WrittenTo "tmp/bar.html" html'] /\
    OS.files w' = <["tmp/bar.html" := OS.TextFile html']> (OS.files example_world).
Proof.
  cbv zeta.
  assert (H : generate_html_of plain_highlight gui_call "tmp/bar.py"
                example_world
              = (converted "tmp/bar.py" "tmp/bar.html"
                   (GUI.html_template "bar.py" GUI.MONOKAI_CSS
                      (("<div class=" +:+ dq +:+ "highlight" +:+ dq +:+ "><pre>")
                       +:+ "print(1)" +:+ "</pre></div>"))
                   example_world,
                 Ok "tmp/bar.html")) by by_evaluation.
  split; [exact H|].
  exact (generate_html_reads_writes_returns_path plain_highlight gui_call
           "tmp/bar.py" example_world _ "tmp/bar.html" H).
Defined.

(** C9, as the claim has it, fails for [generate_html]: called on
    [foo/bar.py] it returns the path [foo/bar.html], which is not the
    document, and it has read one file and written another, whose older
    content is gone. *)
Lemma generate_html_is_not_pure :
  let html := CLI.html_template "bar.py" CLI.MONOKAI_CSS
                (("<div class=" +:+ dq +:+ "highlight" +:+ dq +:+ "><pre>")
                 +:+ "print(1)" +:+ "</pre></div>") in
  let r := CLI.generate_html plain_highlight "foo/bar.py" None example_world in
  snd r = Ok "foo/bar.html" /\
  String.eqb "foo/bar.html" html = false /\
  OS.trace example_world = [] /\
  OS.trace (fst r)
  = [OS.ReadFrom "foo/bar.py"; OS.WrittenTo "foo/bar.html" html] /\
  OS.files example_world !! "foo/bar.html"
  = Some (OS.TextFile "an older document") /\
  OS.files (fst r) !! "foo/bar.html" = Some (OS.TextFile html).
Proof. cbv zeta. repeat split; by_evaluation. Qed.

(* ===================================================================== *)
(** ** Overwriting *)
(* ===================================================================== *)



(* ===================================================================== *)
(** ** Further properties: failures *)
(* ===================================================================== *)

Section Failures.

Variable highlight : highlight_fn.

(** The steps of [generate_html] after the read, in either module. *)
Lemma after_read_raise (c : call) (input code : string) (w1 w' : OS.world)
    (e : exn) :
  match render_of highlight c code input with
  | Raise e0 => (w1, Raise e0)
  | Ok html =>
      match target_path_of c input with
      | Raise e0 => (w1, Raise e0)
      | Ok out =>
          match OS.write_text out html w1 with
          | (w2, Raise e0) => (w2, Raise e0)
          | (w2, Ok _) => (w2, Ok out)
          end
      end
  end = (w', Raise e) -> w' = w1.
Proof.
  destruct (render_of highlight c code input) as [html|e0]; [|congruence].
  destruct (target_path_of c input) as [out|e0]; [|congruence].
  destruct (OS.write_text out html w1) as [w2 [u|e0]] eqn:Ew; [discriminate|].
  apply write_text_raise in Ew. congruence.
Qed.

(** A call that raises stopped before the read or right after it. *)
Lemma generate_html_of_raise_world (c : call) (input : string)
    (w w' : OS.world) (e : exn) :
  generate_html_of highlight c input w = (w', Raise e) ->
  w' = w \/ w' = OS.log (OS.ReadFrom input) w.
Proof.
  assert (Hread : match OS.read_text input w with
                  | (w1, Raise e0) => (w1, Raise e0)
                  | (w1, Ok code) =>
                      match render_of highlight c code input with
                      | Raise e0 => (w1, Raise e0)
                      | Ok html =>
                          match target_path_of c input with
                          | Raise e0 => (w1, Raise e0)
                          | Ok out =>
                              match OS.write_text out html w1 with
                              | (w2, Raise e0) => (w2, Raise e0)
                              | (w2, Ok _) => (w2, Ok out)
                              end
                          end
                      end
                  end = (w', Raise e) ->
                  w' = w \/ w' = OS.log (OS.ReadFrom input) w).
  { destruct (OS.read_text input w) as [w1 [code|e0]] eqn:Er.
    - apply read_text_ok in Er as (_ & _ & ->).
      intros H. apply after_read_raise in H. now right.
    - apply read_text_raise in Er. intros [= -> _]. now left. }
  destruct c as [o|]; cbn [generate_html_of render_of target_path_of] in *.
  - unfold CLI.generate_html.
    destruct (OS.exists_ w input); cbn [negb]; [exact Hread|].
    intros [= -> _]. now left.
  - exact Hread.
Qed.

End Failures.

(* ===================================================================== *)
(** ** Further properties: the derived output path *)
(* ===================================================================== *)

Section DerivedPath.

Import PurePosixPath.

(** [with_suffix('.html')] raises exactly on a path without a name. *)
Lemma with_suffix_html_unfold (q : t) :
  with_suffix q ".html"
  = if String.eqb (name q) EmptyString then
      Raise (Exn ValueError
               ("PosixPath(" +:+ repr (str q) +:+ ") has an empty name"))
    else
      Ok {| root := root q;
            parts := List.removelast (parts q)
                     ++ [if String.eqb (suffix q) EmptyString
                         then name q +:+ ".html"
                         else slice_to (String.length (name q)
                                        - String.length (suffix q)) (name q)
                              +:+ ".html"] |}.
Proof. reflexivity. Qed.

(** A path without a name has no suffix. *)
Lemma suffix_without_name (q : t) :
  name q = EmptyString -> suffix q = EmptyString.
Proof. intros E. unfold suffix. rewrite E. reflexivity. Qed.

(** What ends with [b] is itself once [b] is cut off and put back. *)
Lemma replace_suffix_same (s b : string) :
  endswith s b = true -> replace_suffix s b b = s.
Proof.
  unfold endswith, replace_suffix. intros H.
  apply andb_true_iff in H as [_ H]. apply String.eqb_eq in H.
  set (n := (String.length s - String.length b)%nat) in *.
  rewrite <- (slice_to_from n s) at 2. now rewrite H.
Qed.

End DerivedPath.

(** X2.  When the output name is derived, it ends in [.html], it is the
    same in both modules, and it lies where the input lies: same root, same
    directories, one final component in place of the input's. *)
Theorem derived_output_beside_input (input out : string) :
  CLI.target_path input None = Ok out ->
  GUI.target_path input = Ok out /\
  endswith out ".html" = true /\
  exists q,
    PurePosixPath.with_suffix (PurePosixPath.Path input) ".html" = Ok q /\
    out = PurePosixPath.str q /\
    endswith (PurePosixPath.name q) ".html" = true /\
    PurePosixPath.root q = PurePosixPath.root (PurePosixPath.Path input) /\
    List.removelast (PurePosixPath.parts q)
    = List.removelast (PurePosixPath.parts (PurePosixPath.Path input)).
Proof.
  intros H. split; [exact H|].
  unfold CLI.target_path in H.
  destruct (PurePosixPath.with_suffix (PurePosixPath.Path input) ".html")
    as [q|e] eqn:Ew; [|discriminate].
  injection H as <-.
  assert (Hn : PurePosixPath.name (PurePosixPath.Path input) <> EmptyString).
  { intros E. rewrite with_suffix_html_unfold, E in Ew. discriminate. }
  destruct (with_suffix_html _ Hn) as (q' & stem & Hw & _ & Hs').
  rewrite Hw in Ew. injection Ew as ->.
  split; [rewrite Hs'; apply endswith_append|].
  exists q. split; [reflexivity|]. split; [reflexivity|].
  rewrite with_suffix_html_unfold in Hw.
  apply String.eqb_neq in Hn. rewrite Hn in Hw. injection Hw as <-.
  cbn [PurePosixPath.root PurePosixPath.parts].
  unfold PurePosixPath.name at 1. cbn [PurePosixPath.parts].
  rewrite last_last, removelast_last.
  split; [|split; reflexivity].
  destruct (String.eqb (PurePosixPath.suffix (PurePosixPath.Path input))
              EmptyString); apply endswith_append.
Qed.

Lemma derived_output_beside_input_witness :
  CLI.target_path "/srv/app/main.py" None = Ok "/srv/app/main.html" /\
  GUI.target_path "/srv/app/main.py" = Ok "/srv/app/main.html" /\
  endswith "/srv/app/main.html" ".html" = true.
Proof.
  assert (H : CLI.target_path "/srv/app/main.py" None = Ok "/srv/app/main.html")
    by by_evaluation.
  split; [exact H|].
  destruct (derived_output_beside_input "/srv/app/main.py" _ H)
    as (Hg & He & _).
  split; [exact Hg | exact He].
Defined.

(** X3.  An input path in normal form whose extension is already [.html]
    is its own output path: a conversion that succeeds replaces the input
    file by the document made from it. *)
Theorem html_input_is_overwritten (highlight : highlight_fn) (input : string) :
  normal_form input = input ->
  extension input = ".html" ->
  CLI.target_path input None = Ok input /\
  GUI.target_path input = Ok input /\
  (forall c w w' out,
     c = cli_call None \/ c = gui_call ->
     generate_html_of highlight c input w = (w', Ok out) ->
     out = input /\
     exists code html,
       OS.files w !! input = Some (OS.TextFile code) /\
       render_of highlight c code input = Ok html /\
       OS.files w' !! input = Some (OS.TextFile html)).
Proof.
  intros Hnf Hext.
  assert (Hn : PurePosixPath.name (PurePosixPath.Path input) <> EmptyString).
  { intros E. unfold extension in Hext.
    rewrite (suffix_without_name _ E) in Hext. discriminate. }
  destruct (derived_path input Hn) as (He & Hc & Hg).
  rewrite Hnf, Hext in *.
  rewrite (replace_suffix_same _ _ He) in Hc, Hg.
  split; [exact Hc|]. split; [exact Hg|].
  intros c w w' out Hcall Hgen.
  apply generate_html_of_ok in Hgen
    as (code & html & Hf & _ & Hr & Ht & _ & _ & ->).
  assert (out = input) as ->.
  { destruct Hcall as [-> | ->]; cbn [target_path_of] in Ht; congruence. }
  split; [reflexivity|]. exists code, html.
  repeat split; try assumption.
  rewrite files_converted. apply lookup_insert_eq.
Qed.

Lemma html_input_is_overwritten_witness :
  normal_form "site/index.html" = "site/index.html" /\
  extension "site/index.html" = ".html" /\
  CLI.target_path "site/index.html" None = Ok "site/index.html" /\
  GUI.target_path "site/index.html" = Ok "site/index.html".
Proof.
  assert (H1 : normal_form "site/index.html" = "site/index.html")
    by by_evaluation.
  assert (H2 : extension "site/index.html" = ".html") by by_evaluation.
  split; [exact H1|]. split; [exact H2|].
  destruct (html_input_is_overwritten plain_highlight "site/index.html" H1 H2)
    as (Hc & Hg & _).
  split; [exact Hc | exact Hg].
Defined.

(* ===================================================================== *)
(** ** Further properties: the script *)
(* ===================================================================== *)

Section ScriptFacts.

Variable highlight : highlight_fn.

(** Without a file argument nothing is converted. *)
Lemma main_short (argv : list string) (w : OS.world) :
  (List.length argv < 2)%nat ->
  CLI.exit_code (CLI.main highlight argv w) = 1 /\
  CLI.final (CLI.main highlight argv w) = w.
Proof. intros H. rewrite (main_usage highlight argv w H). split; reflexivity. Qed.

(** With one, the status tells whether [generate_html] returned. *)
Lemma main_status (prog input : string) (rest : list string) (w : OS.world) :
  match CLI.generate_html highlight input None w with
  | (w', Ok _) =>
      CLI.exit_code (CLI.main highlight (prog :: input :: rest) w) = 0 /\
      CLI.final (CLI.main highlight (prog :: input :: rest) w) = w'
  | (w', Raise _) =>
      CLI.exit_code (CLI.main highlight (prog :: input :: rest) w) = 1 /\
      CLI.final (CLI.main highlight (prog :: input :: rest) w) = w'
  end.
Proof.
  rewrite main_reports.
  destruct (CLI.generate_html highlight input None w) as [w' [out|e]];
    [split; reflexivity|].
  destruct (is_FileNotFoundError e); split; reflexivity.
Qed.

(** A read of an entry that is no readable text: the class of what it
    raises. *)
Lemma read_text_unreadable (p : string) (nd : OS.node) (w : OS.world) :
  OS.files w !! p = Some nd ->
  nd = OS.Directory \/ (exists m, nd = OS.BinaryFile m) \/ p ∈ OS.read_denied w ->
  exists e,
    OS.read_text p w = (w, Raise e) /\
    (exn_cls e = IsADirectoryError \/ exn_cls e = PermissionError \/
     exn_cls e = UnicodeDecodeError).
Proof.
  intros Hf Hc. unfold OS.read_text. rewrite Hf.
  destruct nd as [s|m|]; [| |eauto].
  - destruct Hc as [Hc|[(m & Hc)|Hc]]; try discriminate.
    rewrite (bool_decide_eq_true_2 _ Hc). eauto.
  - destruct (bool_decide (p ∈ OS.read_denied w)); eauto 6.
Qed.

(** A write that fails. *)
Lemma write_text_unwritable (p s : string) (w : OS.world) :
  OS.files w !! p = Some OS.Directory \/ p ∈ OS.write_denied w ->
  exists e, OS.write_text p s w = (w, Raise e) /\ is_FileNotFoundError e = false.
Proof.
  intros Hc. unfold OS.write_text.
  destruct (OS.files w !! p) as [[t|m|]|] eqn:E; eauto;
    (destruct Hc as [Hc|Hc]; [discriminate|]);
    rewrite (bool_decide_eq_true_2 _ Hc); eauto.
Qed.

End ScriptFacts.

(** X7.  An input path at which [os.path.exists] is true but which cannot
    be read as text (a directory, a file that is not UTF-8, a file the
    process may not open) is not reported as missing: [open] or [read]
    raises [IsADirectoryError], [PermissionError] or [UnicodeDecodeError],
    the script prints its general error line and exits with status 1, the
    window shows its general error box and status, and the world stays as
    it was. *)
Theorem unreadable_input_general_error (highlight : highlight_fn)
    (input : string) (nd : OS.node) (w : OS.world) :
  OS.exists_ w input = true ->
  OS.files w !! input = Some nd ->
  nd = OS.Directory \/ (exists m, nd = OS.BinaryFile m)
  \/ input ∈ OS.read_denied w ->
  exists e,
    OS.read_text input w = (w, Raise e) /\
    (exn_cls e = IsADirectoryError \/ exn_cls e = PermissionError \/
     exn_cls e = UnicodeDecodeError) /\
    (forall prog rest,
       CLI.main highlight (prog :: input :: rest) w
       = {| CLI.stdout := ["[-] An error occurred: " +:+ exn_msg e];
            CLI.exit_code := 1; CLI.final := w |}) /\
    (forall platform reply g,
       GUI.process_file highlight platform input reply g w
       = (GUI.set_status "Error during processing"
            (GUI.show (GUI.critical "Error" ("An error occurred:
" +:+ exn_msg e))
               (GUI.set_status ("Processing file: " +:+ basename input) g)),
          w)).
Proof.
  intros Ex Hf Hc.
  destruct (read_text_unreadable input nd w Hf Hc) as (e & Hr & Hcls).
  assert (He : is_FileNotFoundError e = false).
  { unfold is_FileNotFoundError.
    destruct Hcls as [-> |[-> | ->]]; reflexivity. }
  exists e. split; [exact Hr|]. split; [exact Hcls|]. split.
  - intros prog rest.
    apply main_other_failure; [|exact He].
    unfold CLI.generate_html. now rewrite Ex, Hr.
  - intros platform reply g.
    apply process_file_other_failure; [|exact He].
    unfold GUI.generate_html. now rewrite Hr.
Qed.

Lemma unreadable_input_general_error_witness :
  OS.exists_ example_world "foo" = true /\
  OS.files example_world !! "foo" = Some OS.Directory /\
  exists e,
    OS.read_text "foo" example_world = (example_world, Raise e) /\
    (exn_cls e = IsADirectoryError \/ exn_cls e = PermissionError \/
     exn_cls e = UnicodeDecodeError) /\
    CLI.main plain_highlight ["highlight.py"; "foo"] example_world
    = {| CLI.stdout := ["[-] An error occurred: " +:+ exn_msg e];
         CLI.exit_code := 1; CLI.final := example_world |}.
Proof.
  assert (H1 : OS.exists_ example_world "foo" = true) by by_evaluation.
  assert (H2 : OS.files example_world !! "foo" = Some OS.Directory)
    by by_evaluation.
  split; [exact H1|]. split; [exact H2|].
  destruct (unreadable_input_general_error plain_highlight "foo" OS.Directory
              example_world H1 H2 (or_introl eq_refl))
    as (e & Hr & Hcls & Hm & _).
  exists e. split; [exact Hr|]. split; [exact Hcls|].
  exact (Hm "highlight.py" []).
Defined.

(** X8.  When the input was read and the document made but the output path
    is a directory or may not be written, nothing is written: the script
    prints its general error line and exits with status 1, the window
    shows its general error box, and the only trace left is the read. *)
Theorem unwritable_output_reported (highlight : highlight_fn)
    (input code frag out : string) (w : OS.world) :
  OS.files w !! input = Some (OS.TextFile code) ->
  input ∉ OS.read_denied w ->
  highlight code PythonLexer formatter_options = Ok frag ->
  CLI.target_path input None = Ok out ->
  OS.files w !! out = Some OS.Directory \/ out ∈ OS.write_denied w ->
  exists e,
    is_FileNotFoundError e = false /\
    (forall prog rest,
       CLI.main highlight (prog :: input :: rest) w
       = {| CLI.stdout := ["[-] An error occurred: " +:+ exn_msg e];
            CLI.exit_code := 1;
            CLI.final := OS.log (OS.ReadFrom input) w |}) /\
    (forall platform reply g,
       GUI.process_file highlight platform input reply g w
       = (GUI.set_status "Error during processing"
            (GUI.show (GUI.critical "Error" ("An error occurred:
" +:+ exn_msg e))
               (GUI.set_status ("Processing file: " +:+ basename input) g)),
          OS.log (OS.ReadFrom input) w)).
Proof.
  intros Hf Hr Hh Ht Hc.
  assert (Er : OS.read_text input w = (OS.log (OS.ReadFrom input) w, Ok code))
    by (apply read_text_ok; auto).
  assert (Ex : OS.exists_ w input = true) by (apply exists_true; eauto).
  assert (Hc' : OS.files (OS.log (OS.ReadFrom input) w) !! out
                = Some OS.Directory
                \/ out ∈ OS.write_denied (OS.log (OS.ReadFrom input) w))
    by exact Hc.
  assert (Ew : forall html, exists e,
             OS.write_text out html (OS.log (OS.ReadFrom input) w)
             = (OS.log (OS.ReadFrom input) w, Raise e) /\
             is_FileNotFoundError e = false).
  { intros html. exact (write_text_unwritable out html _ Hc'). }
  assert (Hmsg : forall h1 h2 e1 e2,
             OS.write_text out h1 (OS.log (OS.ReadFrom input) w)
             = (OS.log (OS.ReadFrom input) w, Raise e1) ->
             OS.write_text out h2 (OS.log (OS.ReadFrom input) w)
             = (OS.log (OS.ReadFrom input) w, Raise e2) -> e1 = e2).
  { intros h1 h2 e1 e2. unfold OS.write_text.
    destruct (OS.files (OS.log (OS.ReadFrom input) w) !! out) as [[t| |]|];
      try destruct (bool_decide (out ∈ OS.write_denied
                                         (OS.log (OS.ReadFrom input) w)));
      congruence. }
  destruct (Ew (CLI.html_template (basename input) CLI.MONOKAI_CSS frag))
    as (e & Hw1 & He).
  destruct (Ew (GUI.html_template (basename input) GUI.MONOKAI_CSS frag))
    as (e' & Hw2 & _).
  assert (e' = e) as -> by (eapply Hmsg; eassumption).
  exists e. split; [exact He|]. split.
  - intros prog rest. apply main_other_failure; [|exact He].
    unfold CLI.generate_html. rewrite Ex, Er. cbn [negb].
    unfold CLI.render. unfold formatter_options in Hh. rewrite Hh, Ht, Hw1.
    reflexivity.
  - intros platform reply g. apply process_file_other_failure; [|exact He].
    unfold GUI.generate_html. rewrite Er.
    unfold GUI.render. unfold formatter_options in Hh.
    rewrite Hh, target_path_agree, Ht, Hw2. reflexivity.
Qed.

Lemma unwritable_output_reported_witness :
  OS.files locked_world !! "tmp/bar.py" = Some (OS.TextFile "print(1)") /\
  CLI.target_path "tmp/bar.py" None = Ok "tmp/bar.html" /\
  "tmp/bar.html" ∈ OS.write_denied locked_world /\
  exists e,
    is_FileNotFoundError e = false /\
    CLI.main plain_highlight ["highlight.py"; "tmp/bar.py"] locked_world
    = {| CLI.stdout := ["[-] An error occurred: " +:+ exn_msg e];
         CLI.exit_code := 1;
         CLI.final := OS.log (OS.ReadFrom "tmp/bar.py") locked_world |}.
Proof.
  assert (H1 : OS.files locked_world !! "tmp/bar.py"
               = Some (OS.TextFile "print(1)")) by by_evaluation.
  assert (H2 : CLI.target_path "tmp/bar.py" None = Ok "tmp/bar.html")
    by by_evaluation.
  assert (H3 : "tmp/bar.html" ∈ OS.write_denied locked_world)
    by (vm_compute; set_solver).
  assert (H4 : "tmp/bar.py" ∉ OS.read_denied locked_world)
    by (vm_compute; set_solver).
  split; [exact H1|]. split; [exact H2|]. split; [exact H3|].
  destruct (unwritable_output_reported plain_highlight "tmp/bar.py" "print(1)"
              _ "tmp/bar.html" locked_world H1 H4 eq_refl H2 (or_intror H3))
    as (e & He & Hm & _).
  exists e. split; [exact He | exact (Hm "highlight.py" [])].
Defined.

(* ===================================================================== *)
(** ** Further properties: what is read and written *)
(* ===================================================================== *)

Section WrittenPaths.

(** A derived output name ends in [.html]. *)
Lemma derived_ends_in_html (input out : string) :
  CLI.target_path input None = Ok out -> endswith out ".html" = true.
Proof.
  intros H. unfold CLI.target_path in H.
  destruct (PurePosixPath.with_suffix (PurePosixPath.Path input) ".html")
    as [q|e] eqn:Ew; [|discriminate].
  injection H as <-.
  assert (Hn : PurePosixPath.name (PurePosixPath.Path input) <> EmptyString).
  { intros E. rewrite with_suffix_html_unfold, E in Ew. discriminate. }
  destruct (with_suffix_html _ Hn) as (q' & stem & Hw & _ & Hs').
  rewrite Hw in Ew. injection Ew as ->.
  rewrite Hs'. apply endswith_append.
Qed.

(** The transfers of one call of [generate_html]: at most a read of the
    input, then at most a write to the output name. *)
Lemma generate_html_of_transfers (highlight : highlight_fn) (c : call)
    (input : string) (w w' : OS.world) (r : result string) :
  generate_html_of highlight c input w = (w', r) ->
  exists evs,
    OS.trace w' = OS.trace w ++ evs /\
    (forall p, In (OS.ReadFrom p) evs -> p = input) /\
    (forall p s, In (OS.WrittenTo p s) evs -> target_path_of c input = Ok p).
Proof.
  intros Hg. destruct r as [out|e].
  - apply generate_html_of_ok in Hg
      as (code & html & _ & _ & _ & Ht & _ & _ & ->).
    exists [OS.ReadFrom input; OS.WrittenTo out html].
    split; [apply trace_converted|]. split.
    + intros p [[= <-]|[[=]|[]]]. reflexivity.
    + intros p s [[=]|[[= <- _]|[]]]. exact Ht.
  - destruct (generate_html_of_raise_world highlight c input w w' e Hg)
      as [-> | ->].
    + exists []. split; [now rewrite app_nil_r|].
      split; [intros p [] | intros p s []].
    + exists [OS.ReadFrom input]. split; [reflexivity|]. split.
      * intros p [[= <-]|[]]. reflexivity.
      * intros p s [[=]|[]].
Qed.

End WrittenPaths.

(** X10.  Every file transfer of a run of the script is a read of its first
    file argument or a write to the output name derived from that argument,
    which ends in [.html]: the script opens no other path for writing,
    whatever its arguments and whether it succeeds or fails; words after the
    file argument are never used as paths.  This is about the paths handed
    to [open], not about which file a path reaches through a link. *)
Theorem script_writes_only_html (highlight : highlight_fn)
    (argv : list string) (w : OS.world) :
  exists evs,
    OS.trace (CLI.final (CLI.main highlight argv w)) = OS.trace w ++ evs /\
    (forall p, In (OS.ReadFrom p) evs -> p = List.nth 1 argv EmptyString) /\
    (forall p s,
       In (OS.WrittenTo p s) evs ->
       CLI.target_path (List.nth 1 argv EmptyString) None = Ok p /\
       endswith p ".html" = true).
Proof.
  assert (Hnone : forall w0 : OS.world,
            exists evs,
              OS.trace w0 = OS.trace w0 ++ evs /\
              (forall p, In (OS.ReadFrom p) evs
                         -> p = List.nth 1 argv EmptyString) /\
              (forall p s,
                 In (OS.WrittenTo p s) evs ->
                 CLI.target_path (List.nth 1 argv EmptyString) None = Ok p /\
                 endswith p ".html" = true)).
  { intros w0. exists []. split; [now rewrite app_nil_r|].
    split; [intros p [] | intros p s []]. }
  destruct argv as [|prog [|input rest]].
  - destruct (main_short highlight [] w) as (_ & ->); [simpl; lia|]. apply Hnone.
  - destruct (main_short highlight [prog] w) as (_ & ->); [simpl; lia|].
    apply Hnone.
  - pose proof (main_status highlight prog input rest w) as Hs.
    destruct (CLI.generate_html highlight input None w) as [w' r] eqn:Hg.
    assert (Hfin : CLI.final (CLI.main highlight (prog :: input :: rest) w) = w')
      by (destruct r; tauto).
    rewrite Hfin.
    destruct (generate_html_of_transfers highlight (cli_call None) input
                w w' r Hg) as (evs & Ht & Hr & Hw).
    exists evs. split; [exact Ht|]. split; [exact Hr|].
    intros p s Hin. pose proof (Hw p s Hin) as Hp. cbn in Hp.
    split; [exact Hp | exact (derived_ends_in_html _ _ Hp)].
Qed.

(* ===================================================================== *)
(** ** Further properties: the display name *)
(* ===================================================================== *)

Section Basename.

(** A text without the character [c]: [rfind] keeps what it had. *)
Lemma rfind_from_absent (c : ascii) (s : string) (i last : Z) :
  contains (String c EmptyString) s = false ->
  rfind_from c s i last = last.
Proof.
  revert i last. induction s as [|a r IH]; intros i last H; [reflexivity|].
  cbn [contains] in H. apply orb_false_iff in H as [Hp Hr].
  cbn [rfind_from]. rewrite (IH _ _ Hr).
  destruct (Ascii.eqb_spec a c) as [->|]; [|reflexivity].
  exfalso. simpl in Hp.
  destruct (ascii_dec c c); [|congruence]. now destruct r.
Qed.

Lemma rfind_from_append (c : ascii) (a b : string) (i last : Z) :
  rfind_from c (a +:+ b) i last
  = rfind_from c b (i + Z.of_nat (String.length a)) (rfind_from c a i last).
Proof.
  revert i last. induction a as [|x a IH]; intros i last.
  - rewrite append_nil_l. cbn [rfind_from String.length]. f_equal. lia.
  - rewrite append_cons. cbn [rfind_from String.length]. rewrite IH.
    f_equal. lia.
Qed.

(** [basename] of a directory, a slash and a name without slash is the
    name. *)
Lemma basename_join (dir name : string) :
  contains "/" name = false ->
  basename (dir +:+ "/" +:+ name) = name.
Proof.
  intros H. unfold basename, rfind.
  rewrite rfind_from_append.
  change ("/" +:+ name) with (String "/" name). cbn [rfind_from].
  rewrite (rfind_from_absent _ _ _ _ H).
  change (Ascii.eqb "/" "/") with true. cbv iota.
  replace (Z.to_nat (0 + Z.of_nat (String.length dir) + 1))
    with (String.length (dir +:+ "/")) by (rewrite length_append; simpl; lia).
  change (String "/" name) with ("/" +:+ name).
  rewrite <- append_assoc. apply slice_from_append.
Qed.

(** [basename] of a name without slash is the name. *)
Lemma basename_plain (name : string) :
  contains "/" name = false -> basename name = name.
Proof.
  intros H. unfold basename, rfind.
  now rewrite (rfind_from_absent _ _ _ _ H).
Qed.

End Basename.

(** X11.  The directory of the input never reaches the document: for a file
    name without slash, the document made for it under any directory is
    the document made for the bare name, with that name in the title and
    in the header. *)
Theorem document_ignores_directory (highlight : highlight_fn) (c : call)
    (code dir name : string) :
  contains "/" name = false ->
  basename (dir +:+ "/" +:+ name) = name /\
  render_of highlight c code (dir +:+ "/" +:+ name)
  = render_of highlight c code name /\
  (forall html,
     render_of highlight c code (dir +:+ "/" +:+ name) = Ok html ->
     contains (title_element name) html = true /\
     contains (header_element name) html = true).
Proof.
  intros H.
  pose proof (basename_join dir name H) as Hb.
  pose proof (basename_plain name H) as Hp.
  split; [exact Hb|]. split.
  - apply render_of_basename; [destruct c; exact I | congruence].
  - intros html Hr. apply render_of_ok in Hr as (frag & _ & ->).
    rewrite Hb. split; [apply html_template_title | apply html_template_header].
Qed.

Lemma document_ignores_directory_witness :
  contains "/" "bar.py" = false /\
  basename ("/home/user/project" +:+ "/" +:+ "bar.py") = "bar.py" /\
  render_of plain_highlight gui_call "print(1)"
    ("/home/user/project" +:+ "/" +:+ "bar.py")
  = render_of plain_highlight gui_call "print(1)" "bar.py".
Proof.
  assert (H : contains "/" "bar.py" = false) by by_evaluation.
  destruct (document_ignores_directory plain_highlight gui_call "print(1)"
              "/home/user/project" "bar.py" H) as (H1 & H2 & _).
  split; [exact H|]. split; [exact H1 | exact H2].
Defined.

(* ===================================================================== *)
(** ** Further properties: the window *)
(* ===================================================================== *)

Section WindowSteps.

Variable highlight : highlight_fn.
Variable platform : string.

(** The request [open_in_browser] makes for a path. *)
Lemma open_in_browser_request (file_path : string) (g : GUI.window) :
  GUI.open_in_browser platform file_path g
  = GUI.request
      (if String.eqb platform "win32" then GUI.startfile file_path
       else if String.eqb platform "darwin" then GUI.run ["open"; file_path]
       else GUI.run ["xdg-open"; file_path]) g.
Proof.
  unfold GUI.open_in_browser.
  destruct (String.eqb platform "win32"); [reflexivity|].
  destruct (String.eqb platform "darwin"); reflexivity.
Qed.

(** What a handler of [process_file] changes in the window: one more box
    and the status, by the class of the exception. *)
Lemma report_failure_fields (e : exn) (g : GUI.window) :
  GUI.title_label (GUI.report_failure e g) = GUI.title_label g /\
  GUI.drop_zone_style (GUI.report_failure e g) = GUI.drop_zone_style g /\
  GUI.launched (GUI.report_failure e g) = GUI.launched g /\
  GUI.dialogs (GUI.report_failure e g)
  = GUI.dialogs g
    ++ [match exn_cls e with
        | FileNotFoundError => GUI.critical "Error" "File not found"
        | _ => GUI.critical "Error" ("An error occurred:
" +:+ exn_msg e)
        end] /\
  GUI.status_label (GUI.report_failure e g)
  = match exn_cls e with
    | FileNotFoundError => "Error: file not found"
    | _ => "Error during processing"
    end.
Proof.
  unfold GUI.report_failure, is_FileNotFoundError.
  destruct (exn_cls e); repeat split.
Qed.

(** [process_file] by the outcome of [generate_html] and of the launch. *)
Lemma process_file_cases (file_path : string) (reply : GUI.StandardButton)
    (g : GUI.window) (w : OS.world) :
  let g1 := GUI.set_status ("Processing file: " +:+ basename file_path) g in
  match GUI.generate_html highlight file_path w with
  | (w', Ok out) =>
      let asked :=
        GUI.show (GUI.question "Success!"
                    ("HTML file successfully created:
" +:+ out +:+ "

Open it in browser?"))
          (GUI.set_status ("Successfully created: " +:+ basename out) g1) in
      GUI.process_file highlight platform file_path reply g w
      = (match reply with
         | GUI.Yes =>
             match OS.launch_error w' with
             | None => GUI.open_in_browser platform out asked
             | Some e =>
                 GUI.report_failure e (GUI.open_in_browser platform out asked)
             end
         | GUI.No => asked
         end, w')
  | (w', Raise e) =>
      GUI.process_file highlight platform file_path reply g w
      = (GUI.report_failure e g1, w')
  end.
Proof.
  cbv zeta. unfold GUI.process_file.
  destruct (GUI.generate_html highlight file_path w) as [w' [out|e]];
    [|reflexivity].
  destruct reply; [|reflexivity].
  destruct (OS.launch_error w'); reflexivity.
Qed.

(** [process_file] leaves the world [generate_html] leaves. *)
Lemma process_file_world (file_path : string) (reply : GUI.StandardButton)
    (g : GUI.window) (w : OS.world) :
  snd (GUI.process_file highlight platform file_path reply g w)
  = fst (GUI.generate_html highlight file_path w).
Proof.
  pose proof (process_file_cases file_path reply g w) as H. cbv zeta in H.
  destruct (GUI.generate_html highlight file_path w) as [w' [out|e]];
    rewrite H; reflexivity.
Qed.

(** [process_file] does not touch the look of the drop zone. *)
Lemma process_file_look (file_path : string) (reply : GUI.StandardButton)
    (g : GUI.window) (w : OS.world) :
  GUI.title_label (fst (GUI.process_file highlight platform file_path reply g w))
  = GUI.title_label g /\
  GUI.drop_zone_style
    (fst (GUI.process_file highlight platform file_path reply g w))
  = GUI.drop_zone_style g.
Proof.
  pose proof (process_file_cases file_path reply g w) as H. cbv zeta in H.
  destruct (GUI.generate_html highlight file_path w) as [w' [out|e]];
    rewrite H; cbn [fst].
  - destruct reply; [|split; reflexivity].
    destruct (OS.launch_error w') as [e|].
    + destruct (report_failure_fields e
                  (GUI.open_in_browser platform out
                     (GUI.show (GUI.question "Success!"
                                  ("HTML file successfully created:
" +:+ out +:+ "

Open it in browser?"))
                        (GUI.set_status
                           ("Successfully created: " +:+ basename out)
                           (GUI.set_status
                              ("Processing file: " +:+ basename file_path) g)))))
        as (-> & -> & _).
      rewrite open_in_browser_request. split; reflexivity.
    + rewrite open_in_browser_request. split; reflexivity.
  - destruct (report_failure_fields e
                (GUI.set_status ("Processing file: " +:+ basename file_path) g))
      as (-> & -> & _).
    split; reflexivity.
Qed.

End WindowSteps.

(** X12.  What [process_file] shows.  After a conversion that raised: one
    error box and an error status, by the class of the exception, and no
    launch.  After one that returned a path: the success question; on No
    nothing more; on Yes one launch request for that path ([os.startfile]
    on win32, [open] on darwin, [xdg-open] anywhere else).  The launch
    stands inside the same [try]: when making it raises, as it does where
    the opener is not installed, a second box follows and the status turns
    to an error, not-found for [FileNotFoundError], although the file was
    created.  The look of the drop zone is never touched. *)
Theorem process_file_answers (highlight : highlight_fn)
    (platform file_path : string) (reply : GUI.StandardButton)
    (g : GUI.window) (w : OS.world) :
  let r := GUI.process_file highlight platform file_path reply g w in
  let failure_box (e : exn) :=
    match exn_cls e with
    | FileNotFoundError => GUI.critical "Error" "File not found"
    | _ => GUI.critical "Error" ("An error occurred:
" +:+ exn_msg e)
    end in
  let failure_status (e : exn) :=
    match exn_cls e with
    | FileNotFoundError => "Error: file not found"
    | _ => "Error during processing"
    end in
  GUI.title_label (fst r) = GUI.title_label g /\
  GUI.drop_zone_style (fst r) = GUI.drop_zone_style g /\
  snd r = fst (GUI.generate_html highlight file_path w) /\
  match snd (GUI.generate_html highlight file_path w) with
  | Raise e =>
      GUI.dialogs (fst r) = GUI.dialogs g ++ [failure_box e] /\
      GUI.status_label (fst r) = failure_status e /\
      GUI.launched (fst r) = GUI.launched g
  | Ok out =>
      let asked :=
        GUI.question "Success!"
          ("HTML file successfully created:
" +:+ out +:+ "

Open it in browser?") in
      let request :=
        if String.eqb platform "win32" then GUI.startfile out
        else if String.eqb platform "darwin" then GUI.run ["open"; out]
        else GUI.run ["xdg-open"; out] in
      match reply, OS.launch_error (snd r) with
      | GUI.No, _ =>
          GUI.dialogs (fst r) = GUI.dialogs g ++ [asked] /\
          GUI.status_label (fst r) = "Successfully created: " +:+ basename out /\
          GUI.launched (fst r) = GUI.launched g
      | GUI.Yes, None =>
          GUI.dialogs (fst r) = GUI.dialogs g ++ [asked] /\
          GUI.status_label (fst r) = "Successfully created: " +:+ basename out /\
          GUI.launched (fst r) = GUI.launched g ++ [request]
      | GUI.Yes, Some e =>
          GUI.dialogs (fst r) = GUI.dialogs g ++ [asked; failure_box e] /\
          GUI.status_label (fst r) = failure_status e /\
          GUI.launched (fst r) = GUI.launched g ++ [request]
      end
  end.
Proof.
  cbv zeta.
  destruct (process_file_look highlight platform file_path reply g w)
    as (Ht & Hz).
  split; [exact Ht|]. split; [exact Hz|].
  split; [apply process_file_world|].
  rewrite process_file_world.
  pose proof (process_file_cases highlight platform file_path reply g w) as H.
  cbv zeta in H.
  destruct (GUI.generate_html highlight file_path w) as [w' [out|e]];
    rewrite H; cbn [snd fst].
  - destruct reply; [|repeat split].
    destruct (OS.launch_error w') as [e|].
    + match goal with
      | |- context [GUI.report_failure e ?g0] =>
          destruct (report_failure_fields e g0) as (_ & _ & -> & -> & ->)
      end.
      rewrite open_in_browser_request. cbn.
      rewrite <- app_assoc. repeat split.
    + rewrite open_in_browser_request. repeat split.
  - match goal with
    | |- context [GUI.report_failure e ?g0] =>
        destruct (report_failure_fields e g0) as (_ & _ & -> & -> & ->)
    end.
    repeat split.
Qed.

(** On a desktop without [xdg-open], a drop that was converted and answered
    with Yes ends with the not-found box and status, the document written
    all the same. *)
Example drop_without_opener :
  let r := GUI.dropEvent plain_highlight "linux" ["tmp/bar.py"] GUI.Yes
             GUI.initial no_opener_world in
  GUI.status_label (fst r) = "Error: file not found" /\
  GUI.dialogs (fst r)
  = [GUI.question "Success!" "HTML file successfully created:
tmp/bar.html

Open it in browser?";
     GUI.critical "Error" "File not found"] /\
  GUI.launched (fst r) = [GUI.run ["xdg-open"; "tmp/bar.html"]] /\
  OS.exists_ (snd r) "tmp/bar.html" = true.
Proof. cbv zeta. repeat split; by_evaluation. Qed.

(** X13.  After a drop the drop zone is back to its idle look, whatever
    was dropped and whatever the conversion did; a drag that enters and
    leaves again changes nothing but restores that look; a drag without
    URLs is not taken up at all. *)
Theorem drop_zone_returns_to_idle (highlight : highlight_fn)
    (platform : string) (urls : list string) (reply : GUI.StandardButton)
    (g : GUI.window) (w : OS.world) :
  GUI.idle (fst (GUI.dropEvent highlight platform urls reply g w)) /\
  GUI.idle (GUI.dragLeaveEvent (GUI.dragEnterEvent urls g)) /\
  GUI.status_label (GUI.dragLeaveEvent (GUI.dragEnterEvent urls g))
  = GUI.status_label g /\
  GUI.dialogs (GUI.dragLeaveEvent (GUI.dragEnterEvent urls g))
  = GUI.dialogs g /\
  GUI.launched (GUI.dragLeaveEvent (GUI.dragEnterEvent urls g))
  = GUI.launched g /\
  GUI.dragEnterEvent [] g = g.
Proof.
  split.
  - unfold GUI.dropEvent. destruct urls as [|file_path rest];
      [split; reflexivity|].
    destruct (endswith file_path ".py"); [|split; reflexivity].
    destruct (process_file_look highlight platform file_path reply
                (GUI.reset_style g) w) as (Ht & Hz).
    split; [rewrite Hz | rewrite Ht]; reflexivity.
  - destruct urls; repeat split.
Qed.

(** X15.  The extension check guards drops only.  A readable text file
    whose path does not end in [.py] is refused when dropped, with the world
    unchanged, and converted when chosen in the file dialog: the dialog's
    path goes to [process_file] unchecked.  A cancelled dialog, which
    returns the empty path, does nothing. *)
Theorem picker_skips_extension_check (highlight : highlight_fn)
    (platform file_path code frag out : string) (reply : GUI.StandardButton)
    (g : GUI.window) (w : OS.world) :
  endswith file_path ".py" = false ->
  file_path <> EmptyString ->
  OS.files w !! file_path = Some (OS.TextFile code) ->
  file_path ∉ OS.read_denied w ->
  highlight code PythonLexer formatter_options = Ok frag ->
  GUI.target_path file_path = Ok out ->
  OS.files w !! out <> Some OS.Directory ->
  out ∉ OS.write_denied w ->
  let html := GUI.html_template (basename file_path) GUI.MONOKAI_CSS frag in
  snd (GUI.dropEvent highlight platform [file_path] reply g w) = w /\
  snd (GUI.select_file highlight platform file_path reply g w)
  = converted file_path out html w /\
  OS.files (snd (GUI.select_file highlight platform file_path reply g w)) !! out
  = Some (OS.TextFile html) /\
  GUI.select_file highlight platform EmptyString reply g w = (g, w).
Proof.
  intros He Hne Hf Hr Hh Ht Hd Hw html.
  split; [unfold GUI.dropEvent; now rewrite He|].
  assert (Hg : GUI.generate_html highlight file_path w
               = (converted file_path out html w, Ok out)).
  { apply GUI_generate_html_ok. exists code, html.
    repeat split; try assumption. apply GUI_render_ok. eauto. }
  assert (Hs : snd (GUI.select_file highlight platform file_path reply g w)
               = converted file_path out html w).
  { unfold GUI.select_file. apply String.eqb_neq in Hne. rewrite Hne.
    now rewrite process_file_world, Hg. }
  split; [exact Hs|]. split; [|reflexivity].
  rewrite Hs, files_converted. apply lookup_insert_eq.
Qed.

Lemma picker_skips_extension_check_witness :
  let html := GUI.html_template "bar.html" GUI.MONOKAI_CSS
                (("<div class=" +:+ dq +:+ "highlight" +:+ dq +:+ "><pre>")
                 +:+ "an older document" +:+ "</pre></div>") in
  endswith "foo/bar.html" ".py" = false /\
  OS.files example_world !! "foo/bar.html"
  = Some (OS.TextFile "an older document") /\
  GUI.target_path "foo/bar.html" = Ok "foo/bar.html" /\
  snd (GUI.dropEvent plain_highlight "linux" ["foo/bar.html"] GUI.No
         GUI.initial example_world) = example_world /\
  snd (GUI.select_file plain_highlight "linux" "foo/bar.html" GUI.No
         GUI.initial example_world)
  = converted "foo/bar.html" "foo/bar.html" html example_world.
Proof.
  cbv zeta.
  assert (H1 : endswith "foo/bar.html" ".py" = false) by by_evaluation.
  assert (H2 : OS.files example_world !! "foo/bar.html"
               = Some (OS.TextFile "an older document")) by by_evaluation.
  assert (H3 : GUI.target_path "foo/bar.html" = Ok "foo/bar.html")
    by by_evaluation.
  split; [exact H1|]. split; [exact H2|]. split; [exact H3|].
  refine (let H := picker_skips_extension_check plain_highlight "linux"
                     "foo/bar.html" "an older document" _ "foo/bar.html"
                     GUI.No GUI.initial example_world H1 _ H2 _ eq_refl H3 _ _
          in conj (proj1 H) (proj1 (proj2 H))).
  - discriminate.
  - vm_compute. set_solver.
  - vm_compute. discriminate.
  - vm_compute. set_solver.
Defined.

(* ===================================================================== *)
(** ** Further properties: the event loop *)
(* ===================================================================== *)

Section EventLoop.

Variable highlight : highlight_fn.
Variable platform : string.

(** The world after one event: as before, or as a conversion of the
    window left it. *)
Lemma handle_world (e : GUI.event) (g : GUI.window) (w : OS.world) :
  snd (GUI.handle highlight platform e g w) = w \/
  exists file_path,
    snd (GUI.handle highlight platform e g w)
    = fst (GUI.generate_html highlight file_path w).
Proof.
  destruct e as [urls| |urls reply|file_path reply]; cbn [GUI.handle].
  - now left.
  - now left.
  - unfold GUI.dropEvent. destruct urls as [|file_path rest]; [now left|].
    destruct (endswith file_path ".py"); [|now left].
    right. exists file_path. apply process_file_world.
  - unfold GUI.select_file.
    destruct (String.eqb file_path EmptyString); [now left|].
    right. exists file_path. apply process_file_world.
Qed.

(** The launches after a call of [process_file]: as before, or one more,
    for a path [generate_html] returned. *)
Lemma process_file_launched (file_path : string) (reply : GUI.StandardButton)
    (g : GUI.window) (w : OS.world) :
  GUI.launched (fst (GUI.process_file highlight platform file_path reply g w))
  = GUI.launched g \/
  exists out,
    snd (GUI.generate_html highlight file_path w) = Ok out /\
    GUI.launched (fst (GUI.process_file highlight platform file_path reply g w))
    = GUI.launched g
      ++ [if String.eqb platform "win32" then GUI.startfile out
          else if String.eqb platform "darwin" then GUI.run ["open"; out]
          else GUI.run ["xdg-open"; out]].
Proof.
  pose proof (process_file_cases highlight platform file_path reply g w) as H.
  cbv zeta in H.
  destruct (GUI.generate_html highlight file_path w) as [w' [out|e]];
    rewrite H; cbn [fst].
  - destruct reply; [|now left].
    right. exists out. split; [reflexivity|].
    destruct (OS.launch_error w') as [e|].
    + match goal with
      | |- context [GUI.report_failure e ?g0] =>
          destruct (report_failure_fields e g0) as (_ & _ & -> & _)
      end.
      now rewrite open_in_browser_request.
    + now rewrite open_in_browser_request.
  - left.
    match goal with
    | |- context [GUI.report_failure e ?g0] =>
        destruct (report_failure_fields e g0) as (_ & _ & -> & _)
    end.
    reflexivity.
Qed.

(** A path [generate_html] of the window returned ends in [.html]. *)
Lemma GUI_generate_html_ends_in_html (file_path out : string) (w : OS.world) :
  snd (GUI.generate_html highlight file_path w) = Ok out ->
  endswith out ".html" = true.
Proof.
  destruct (GUI.generate_html highlight file_path w) as [w' r] eqn:Hg.
  cbn [snd]. intros ->.
  apply GUI_generate_html_ok in Hg
    as (code & html & _ & _ & _ & Ht & _).
  rewrite target_path_agree in Ht. exact (derived_ends_in_html _ _ Ht).
Qed.

(** The launches after one event. *)
Lemma handle_launched (e : GUI.event) (g : GUI.window) (w : OS.world) :
  GUI.launched (fst (GUI.handle highlight platform e g w)) = GUI.launched g \/
  exists out,
    endswith out ".html" = true /\
    GUI.launched (fst (GUI.handle highlight platform e g w))
    = GUI.launched g
      ++ [if String.eqb platform "win32" then GUI.startfile out
          else if String.eqb platform "darwin" then GUI.run ["open"; out]
          else GUI.run ["xdg-open"; out]].
Proof.
  assert (Hp : forall file_path reply g0,
             GUI.launched g0 = GUI.launched g ->
             GUI.launched (fst (GUI.process_file highlight platform file_path
                                  reply g0 w)) = GUI.launched g \/
             exists out,
               endswith out ".html" = true /\
               GUI.launched (fst (GUI.process_file highlight platform file_path
                                    reply g0 w))
               = GUI.launched g
                 ++ [if String.eqb platform "win32" then GUI.startfile out
                     else if String.eqb platform "darwin"
                          then GUI.run ["open"; out]
                          else GUI.run ["xdg-open"; out]]).
  { intros file_path reply g0 Hg0.
    destruct (process_file_launched file_path reply g0 w)
      as [H|(out & Ho & H)]; rewrite H, Hg0; [now left|].
    right. exists out. split; [|reflexivity].
    exact (GUI_generate_html_ends_in_html _ _ _ Ho). }
  destruct e as [urls| |urls reply|file_path reply]; cbn [GUI.handle fst].
  - left. now destruct urls.
  - now left.
  - unfold GUI.dropEvent. destruct urls as [|file_path rest]; [now left|].
    destruct (endswith file_path ".py"); [|now left].
    now apply Hp.
  - unfold GUI.select_file.
    destruct (String.eqb file_path EmptyString); [now left|].
    now apply Hp.
Qed.

(** The transfers of one event: none, or those of one conversion, whose
    only write goes to a path that ends in [.html]. *)
Lemma handle_transfers (e : GUI.event) (g : GUI.window) (w : OS.world) :
  exists evs,
    OS.trace (snd (GUI.handle highlight platform e g w)) = OS.trace w ++ evs /\
    forall p s, In (OS.WrittenTo p s) evs -> endswith p ".html" = true.
Proof.
  destruct (handle_world e g w) as [-> | (file_path & ->)].
  - exists []. split; [now rewrite app_nil_r | intros p s []].
  - destruct (GUI.generate_html highlight file_path w) as [w' r] eqn:Hg.
    destruct (generate_html_of_transfers highlight gui_call file_path w w' r Hg)
      as (evs & Ht & _ & Hw).
    exists evs. split; [exact Ht|].
    intros p s Hin. pose proof (Hw p s Hin) as Hp. cbn in Hp.
    rewrite target_path_agree in Hp. exact (derived_ends_in_html _ _ Hp).
Qed.

End EventLoop.

(** X16.  Whatever events the window receives, in whatever order, every
    write it makes goes to a path that ends in [.html]: it opens no dropped
    or chosen path for writing unless that path itself ends in [.html].
    This is about the paths handed to [open], not about which file a path
    reaches through a link. *)
Theorem window_writes_only_html (highlight : highlight_fn) (platform : string)
    (events : list GUI.event) (g : GUI.window) (w : OS.world) :
  exists evs,
    OS.trace (snd (GUI.exec highlight platform events g w))
    = OS.trace w ++ evs /\
    forall p s, In (OS.WrittenTo p s) evs -> endswith p ".html" = true.
Proof.
  revert g w.
  induction events as [|e rest IH]; intros g w.
  - exists []. split; [cbn; now rewrite app_nil_r | intros p s []].
  - cbn [GUI.exec].
    destruct (handle_transfers highlight platform e g w) as (evs1 & Ht1 & Hw1).
    destruct (GUI.handle highlight platform e g w) as [g' w'] eqn:He.
    cbn [snd] in Ht1.
    destruct (IH g' w') as (evs2 & Ht2 & Hw2).
    exists (evs1 ++ evs2). split.
    + rewrite Ht2, Ht1. symmetry. apply app_assoc.
    + intros p s Hin. apply in_app_or in Hin as [Hin|Hin]; eauto.
Qed.

(** X17.  Whatever events the window receives, every request it makes to
    the desktop is to open a path that ends in [.html], with the command of
    the platform. *)
Theorem window_launches_only_html (highlight : highlight_fn)
    (platform : string) (events : list GUI.event) (g : GUI.window)
    (w : OS.world) :
  exists outs,
    Forall (fun out => endswith out ".html" = true) outs /\
    GUI.launched (fst (GUI.exec highlight platform events g w))
    = GUI.launched g
      ++ List.map
           (fun out =>
              if String.eqb platform "win32" then GUI.startfile out
              else if String.eqb platform "darwin" then GUI.run ["open"; out]
              else GUI.run ["xdg-open"; out]) outs.
Proof.
  revert g w. induction events as [|e rest IH]; intros g w.
  - exists []. split; [constructor|]. cbn. now rewrite app_nil_r.
  - cbn [GUI.exec].
    destruct (GUI.handle highlight platform e g w) as [g' w'] eqn:He.
    destruct (IH g' w') as (outs & Ho & Hl). rewrite Hl.
    destruct (handle_launched highlight platform e g w) as [H|(out & Hh & H)];
      rewrite He in H; cbn [fst] in H; rewrite H.
    + exists outs. split; [exact Ho | reflexivity].
    + exists (out :: outs). split; [now constructor|].
      now rewrite <- app_assoc.
Qed.

(* ===================================================================== *)
(** ** Further properties: what counts as the extension *)
(* ===================================================================== *)

Section Extension.

Import PurePosixPath.

(** [rfind] of a dot in a stem, a dot and a rest without dot. *)
Lemma rfind_last_dot (stem rest : string) :
  contains "." rest = false ->
  rfind "." (stem +:+ "." +:+ rest) = Z.of_nat (String.length stem).
Proof.
  intros H. unfold rfind. rewrite rfind_from_append.
  change ("." +:+ rest) with (String "." rest). cbn [rfind_from].
  rewrite (rfind_from_absent _ _ _ _ H).
  change (Ascii.eqb "." ".") with true. cbv iota. lia.
Qed.

(** The suffix of a name that is a non-empty stem, a dot and a non-empty
    rest without dot. *)
Lemma suffix_of_dotted (q : t) (stem ext : string) :
  name q = stem +:+ "." +:+ ext ->
  stem <> EmptyString -> ext <> EmptyString ->
  contains "." ext = false ->
  suffix q = "." +:+ ext.
Proof.
  intros Hn Hs He Hc. unfold suffix. rewrite Hn, (rfind_last_dot _ _ Hc).
  rewrite !length_append. cbn [String.length].
  assert (0 < String.length stem)%nat by (destruct stem; [contradiction | simpl; lia]).
  assert (0 < String.length ext)%nat by (destruct ext; [contradiction | simpl; lia]).
  destruct (Z.ltb_spec 0 (Z.of_nat (String.length stem))); [|lia].
  destruct (Z.ltb_spec (Z.of_nat (String.length stem))
              (Z.of_nat (String.length stem + (1 + String.length ext)) - 1));
    [|lia].
  cbn [andb]. rewrite Nat2Z.id. apply slice_from_append.
Qed.

(** A name without suffix: no dot at all, a dot only in front, or a dot at
    the very end. *)
Lemma suffix_of_undotted (q : t) (rest : string) :
  (name q = rest \/ name q = "." +:+ rest) ->
  contains "." rest = false ->
  suffix q = EmptyString.
Proof.
  intros [Hn|Hn] Hc; unfold suffix, rfind; rewrite Hn.
  - now rewrite (rfind_from_absent _ _ _ _ Hc).
  - change ("." +:+ rest) with (String "." rest). cbn [rfind_from].
    now rewrite (rfind_from_absent _ _ _ _ Hc).
Qed.

Lemma suffix_of_trailing_dot (q : t) (stem : string) :
  name q = stem +:+ "." -> suffix q = EmptyString.
Proof.
  intros Hn. unfold suffix. rewrite Hn.
  pose proof (rfind_last_dot stem EmptyString eq_refl) as Hr.
  change ("." +:+ EmptyString) with "." in Hr.
  rewrite Hr, length_append. cbn [String.length].
  destruct (Z.ltb_spec (Z.of_nat (String.length stem))
              (Z.of_nat (String.length stem + 1) - 1)); [lia|].
  now rewrite andb_false_r.
Qed.

(** The name [with_suffix('.html')] gives. *)
Lemma with_suffix_html_name (q : t) :
  name q <> EmptyString ->
  exists q',
    with_suffix q ".html" = Ok q' /\
    name q'
    = (if String.eqb (suffix q) EmptyString then name q
       else slice_to (String.length (name q) - String.length (suffix q))
              (name q)) +:+ ".html".
Proof.
  intros Hn. rewrite with_suffix_html_unfold.
  apply String.eqb_neq in Hn. rewrite Hn.
  eexists. split; [reflexivity|].
  unfold name at 1. cbn [parts]. rewrite last_last.
  now destruct (String.eqb (suffix q) EmptyString).
Qed.

End Extension.

(** X18.  What the derived name replaces is the part of the final component
    from its last dot, and only when that dot is neither the first nor the
    last character.  So [stem.ext] becomes [stem.html], also when the stem
    holds further dots ([a.tar.gz] becomes [a.tar.html]); a name without
    dot, a name whose only dot comes first ([.bashrc]) and a name that ends
    in a dot keep all their characters and get [.html] appended. *)
Theorem extension_is_after_last_inner_dot (q : PurePosixPath.t)
    (stem ext : string) :
  contains "." ext = false ->
  (PurePosixPath.name q = stem +:+ "." +:+ ext ->
   stem <> EmptyString -> ext <> EmptyString ->
   PurePosixPath.suffix q = "." +:+ ext /\
   exists q', PurePosixPath.with_suffix q ".html" = Ok q' /\
              PurePosixPath.name q' = stem +:+ ".html") /\
  (ext <> EmptyString ->
   PurePosixPath.name q = ext \/ PurePosixPath.name q = "." +:+ ext ->
   PurePosixPath.suffix q = EmptyString /\
   exists q', PurePosixPath.with_suffix q ".html" = Ok q' /\
              PurePosixPath.name q' = PurePosixPath.name q +:+ ".html") /\
  (PurePosixPath.name q = stem +:+ "." ->
   PurePosixPath.suffix q = EmptyString /\
   exists q', PurePosixPath.with_suffix q ".html" = Ok q' /\
              PurePosixPath.name q' = PurePosixPath.name q +:+ ".html").
Proof.
  intros Hc. split; [|split].
  - intros Hn Hs He.
    pose proof (suffix_of_dotted q stem ext Hn Hs He Hc) as Hsfx.
    split; [exact Hsfx|].
    assert (Hne : PurePosixPath.name q <> EmptyString).
    { rewrite Hn. intros E. apply append_eq_nil in E as [E _]. contradiction. }
    destruct (with_suffix_html_name q Hne) as (q' & Hw & Hq).
    exists q'. split; [exact Hw|]. rewrite Hq, Hsfx, Hn.
    change (String.eqb ("." +:+ ext) EmptyString) with false. cbv iota.
    f_equal.
    replace (stem +:+ "." +:+ ext) with (stem +:+ ("." +:+ ext)) by reflexivity.
    apply slice_to_append_cut.
  - intros He Hn.
    pose proof (suffix_of_undotted q ext Hn Hc) as Hsfx.
    split; [exact Hsfx|].
    assert (Hne : PurePosixPath.name q <> EmptyString).
    { destruct Hn as [-> | ->]; [exact He | discriminate]. }
    destruct (with_suffix_html_name q Hne) as (q' & Hw & Hq).
    exists q'. split; [exact Hw|]. now rewrite Hq, Hsfx.
  - intros Hn.
    pose proof (suffix_of_trailing_dot q stem Hn) as Hsfx.
    split; [exact Hsfx|].
    assert (Hne : PurePosixPath.name q <> EmptyString).
    { rewrite Hn. intros E. apply append_eq_nil in E as [_ E]. discriminate. }
    destruct (with_suffix_html_name q Hne) as (q' & Hw & Hq).
    exists q'. split; [exact Hw|]. now rewrite Hq, Hsfx.
Qed.

Lemma extension_is_after_last_inner_dot_witness :
  contains "." "gz" = false /\
  PurePosixPath.name (PurePosixPath.Path "dist/a.tar.gz") = "a.tar" +:+ "." +:+ "gz" /\
  PurePosixPath.suffix (PurePosixPath.Path "dist/a.tar.gz") = "." +:+ "gz" /\
  CLI.target_path "dist/a.tar.gz" None = Ok "dist/a.tar.html" /\
  contains "." "bashrc" = false /\
  PurePosixPath.name (PurePosixPath.Path "home/.bashrc") = "." +:+ "bashrc" /\
  PurePosixPath.suffix (PurePosixPath.Path "home/.bashrc") = EmptyString /\
  CLI.target_path "home/.bashrc" None = Ok "home/.bashrc.html".
Proof.
  assert (H1 : contains "." "gz" = false) by by_evaluation.
  assert (H2 : PurePosixPath.name (PurePosixPath.Path "dist/a.tar.gz")
               = "a.tar" +:+ "." +:+ "gz") by by_evaluation.
  assert (H3 : contains "." "bashrc" = false) by by_evaluation.
  assert (H4 : PurePosixPath.name (PurePosixPath.Path "home/.bashrc")
               = "." +:+ "bashrc") by by_evaluation.
  split; [exact H1|]. split; [exact H2|].
  split.
  { refine (proj1 (proj1 (extension_is_after_last_inner_dot
                            (PurePosixPath.Path "dist/a.tar.gz") "a.tar" "gz" H1)
                     H2 _ _)); discriminate. }
  split; [by_evaluation|]. split; [exact H3|]. split; [exact H4|].
  split; [|by_evaluation].
  refine (proj1 (proj1 (proj2 (extension_is_after_last_inner_dot
                                 (PurePosixPath.Path "home/.bashrc")
                                 EmptyString "bashrc" H3))
                   _ (or_intror H4))).
  discriminate.
Defined.

(* ===================================================================== *)
(** ** Further properties: a missing input, and the document *)
(* ===================================================================== *)

(** X19.  For an input path at which [os.path.exists] is false neither
    module reads or writes anything.  [generate_html] of the script raises
    [FileNotFoundError] at its check, whatever the output argument.
    [generate_html] of the window has no check and raises what [open]
    raises; [process_file] then leaves the world as it was, launches
    nothing and shows one error box with the matching status: the
    not-found ones when [open] raised [FileNotFoundError], the general ones
    for any other exception. *)
Theorem missing_input_leaves_no_trace (highlight : highlight_fn)
    (platform input : string) (reply : GUI.StandardButton)
    (g : GUI.window) (w : OS.world) :
  OS.exists_ w input = false ->
  (forall o,
     CLI.generate_html highlight input o w
     = (w, Raise (Exn FileNotFoundError
                    ("File '" +:+ input +:+ "' not found")))) /\
  exists e,
    OS.read_text input w = (w, Raise e) /\
    GUI.generate_html highlight input w = (w, Raise e) /\
    let r := GUI.process_file highlight platform input reply g w in
    snd r = w /\
    GUI.launched (fst r) = GUI.launched g /\
    GUI.dialogs (fst r)
    = GUI.dialogs g
      ++ [match exn_cls e with
          | FileNotFoundError => GUI.critical "Error" "File not found"
          | _ => GUI.critical "Error" ("An error occurred:
" +:+ exn_msg e)
          end] /\
    GUI.status_label (fst r)
    = match exn_cls e with
      | FileNotFoundError => "Error: file not found"
      | _ => "Error during processing"
      end.
Proof.
  intros Ex. split.
  - intros o. apply CLI_generate_html_missing. exact Ex.
  - destruct (GUI_generate_html_missing highlight input w Ex) as (e & Hr & Hg).
    exists e. split; [exact Hr|]. split; [exact Hg|]. cbv zeta.
    rewrite (process_file_raise highlight platform input reply g w w e Hg).
    cbn [fst snd].
    destruct (report_failure_fields e
                (GUI.set_status ("Processing file: " +:+ basename input) g))
      as (_ & _ & -> & -> & ->).
    repeat split.
Qed.

Lemma missing_input_leaves_no_trace_witness :
  OS.exists_ example_world "nowhere.py" = false /\
  CLI.generate_html plain_highlight "nowhere.py" None example_world
  = (example_world,
     Raise (Exn FileNotFoundError "File 'nowhere.py' not found")) /\
  snd (GUI.process_file plain_highlight "linux" "nowhere.py" GUI.Yes
         GUI.initial example_world) = example_world /\
  GUI.dialogs (fst (GUI.process_file plain_highlight "linux" "nowhere.py"
                      GUI.Yes GUI.initial example_world))
  = [GUI.critical "Error" "File not found"].
Proof.
  assert (H : OS.exists_ example_world "nowhere.py" = false) by by_evaluation.
  split; [exact H|].
  destruct (missing_input_leaves_no_trace plain_highlight "linux" "nowhere.py"
              GUI.Yes GUI.initial example_world H)
    as (Hc & e & Hr & _ & Hw & _ & Hd & _).
  split; [exact (Hc None)|]. split; [exact Hw|].
  assert (He : e = Exn FileNotFoundError
                     "[Errno 2] No such file or directory: 'nowhere.py'").
  { assert (Hr' : OS.read_text "nowhere.py" example_world
                  = (example_world,
                     Raise (Exn FileNotFoundError
                              "[Errno 2] No such file or directory: 'nowhere.py'")))
      by by_evaluation.
    rewrite Hr' in Hr. now injection Hr as <-. }
  rewrite Hd, He. reflexivity.
Defined.

(** X20.  The HTML construction adds no failure of its own and catches
    none: when pygments returns markup, [generate_html] of either module
    builds a document that is not empty, holds that markup inside the code
    region and carries the style rule of the [err] class, which pygments
    gives to text its lexer does not recognise; when pygments raises, the
    same exception leaves the construction.  Whether pygments returns for
    every text is a property of that library. *)
Theorem render_passes_pygments_through (highlight : highlight_fn) (c : call)
    (code input_file : string) :
  match highlight code PythonLexer formatter_options with
  | Ok frag =>
      exists html,
        render_of highlight c code input_file = Ok html /\
        html <> EmptyString /\
        contains (code_region frag) html = true /\
        contains error_rule html = true
  | Raise e => render_of highlight c code input_file = Raise e
  end.
Proof.
  destruct (highlight code PythonLexer formatter_options) as [frag|e] eqn:E.
  - exists (html_template_of c (basename input_file) (stylesheet_of c) frag).
    split; [apply render_of_ok; eauto|].
    split; [apply html_template_nonempty|].
    split; [apply html_template_code_region|].
    apply html_template_stylesheet, stylesheet_error_rule.
  - unfold formatter_options in E.
    destruct c; cbn [render_of]; [unfold CLI.render | unfold GUI.render];
      now rewrite E.
Qed.
